(** * mail-cannon: batch warehouse-order creator

    A shallow embedding of [mail_cannon.py] and the properties of its
    configuration loader, row validator, payload builder and run
    orchestrator.

    Conventions of the embedding:
    - a Python [str] is a [string]; its characters are code points below 256;
    - a Python [int] is a [Z];
    - a [dict] keyed by strings is a [gmap string _];
    - a raised exception is the [Raise] case of [res]; effects of [run]
      (file reads, log records, network calls, the results file) are
      recorded, in order, in a trace of [event]s. *)

From Stdlib Require Import ZArith Ascii String List PrimFloat.
From stdpp Require Import base option list gmap strings pretty fin_maps.

Set Warnings "-register-all".

Local Open Scope Z_scope.

(** ** Python values *)

(** Values that [json.load] produces, which are also the values that the
    program stores in its result records.  An object keeps its members in
    document order; [py_dict] below gives the dictionary it denotes. *)
Inductive json : Type :=
  | JNull
  | JBool (b : bool)
  | JInt (z : Z)
  | JFloat (f : float)
  | JStr (s : string)
  | JArr (items : list json)
  | JObj (members : list (string * json)).

(** The content of a text, by what [json.loads] makes of it: nothing at all,
    a JSON document, or something that is not JSON. *)
Inductive text : Type :=
  | EmptyText
  | JsonText (v : json)
  | NotJson (raw : string).

(** Exceptions the program can raise or let escape.  [HTTPError] carries
    the status code, the reason phrase and the body of the error response;
    [URLError] carries its reason as [str] shows it. *)
Inductive exn : Type :=
  | SystemExit (msg : string)
  | KeyError (key : string)
  | ValueError
  | TypeError
  | AttributeError
  | OSError
  | HTTPError (code : Z) (msg : string) (body : text)
  | URLError (reason : string)
  | OtherError (what : string).

Inductive res (A : Type) : Type :=
  | Ok (a : A)
  | Raise (e : exn).
Arguments Ok {A} a.
Arguments Raise {A} e.

#[global] Instance res_ret : MRet res := fun _ a => Ok a.
#[global] Instance res_bind : MBind res := fun _ _ f m =>
  match m with
  | Ok a => f a
  | Raise e => Raise e
  end.

(** ** Strings *)

Module Str.

Definition code (c : ascii) : N := N_of_ascii c.

(** [str.isspace] on code points below 256. *)
Definition isspace (c : ascii) : bool :=
  let n := code c in
  ((9 <=? n) && (n <=? 13) || (28 <=? n) && (n <=? 32)
   || (n =? 133) || (n =? 160))%N.

(** Whitespace that [int()] skips around a number: the file, group,
    record and unit separators (28..31) are not part of it. *)
Definition is_int_space (c : ascii) : bool :=
  let n := code c in
  ((9 <=? n) && (n <=? 13) || (n =? 32) || (n =? 133) || (n =? 160))%N.

Fixpoint lstrip_by (p : ascii -> bool) (s : string) : string :=
  match s with
  | String c s' => if p c then lstrip_by p s' else s
  | EmptyString => EmptyString
  end.

Definition rstrip_by (p : ascii -> bool) (s : string) : string :=
  String.rev (lstrip_by p (String.rev s)).

Definition strip_by (p : ascii -> bool) (s : string) : string :=
  rstrip_by p (lstrip_by p s).

(** [s.strip()] *)
Definition strip (s : string) : string := strip_by isspace s.

(** [sep.join(parts)] *)
Fixpoint join (sep : string) (parts : list string) : string :=
  match parts with
  | [] => ""
  | [p] => p
  | p :: rest => p +:+ sep +:+ join sep rest
  end.

(** [s.rstrip('/')] *)
Definition rstrip_slash (s : string) : string :=
  rstrip_by (fun c => bool_decide (c = "/"%char)) s.

(** [needle in hay] on strings. *)
Definition contains (needle hay : string) : bool :=
  match needle with
  | EmptyString => true
  | _ => match index 0 needle hay with Some _ => true | None => false end
  end.

Definition is_empty (s : string) : bool :=
  match s with EmptyString => true | _ => false end.

End Str.

(** ** [int(str)] *)

Module PyInt.

(** Default of [sys.get_int_max_str_digits()]: longer digit strings are
    refused with [ValueError]. *)
Definition int_max_str_digits : nat := 4300.

Definition digit_value (c : ascii) : option Z :=
  let n := Str.code c in
  if ((48 <=? n) && (n <=? 57))%N then Some (Z.of_N n - 48) else None.

(** Digits in base ten, where a single underscore may separate two
    digits.  [after_us] says that the previous character was an
    underscore; the result is the value and the number of digits. *)
Fixpoint scan_digits (s : string) (after_us : bool) (acc : Z) (ndigits : nat)
  : option (Z * nat) :=
  match s with
  | EmptyString => if after_us then None else Some (acc, ndigits)
  | String c s' =>
      if bool_decide (c = "_"%char) then
        if after_us then None else scan_digits s' true acc ndigits
      else
        match digit_value c with
        | Some d => scan_digits s' false (10 * acc + d) (S ndigits)
        | None => None
        end
  end.

Definition parse_magnitude (s : string) : option Z :=
  match s with
  | EmptyString => None
  | String c _ =>
      if bool_decide (c = "_"%char) then None
      else
        match scan_digits s false 0 0 with
        | Some (v, n) =>
            if (int_max_str_digits <? n)%nat then None else Some v
        | None => None
        end
  end.

(** [int(s)] for a string [s]; [None] stands for [ValueError]. *)
Definition of_string (s : string) : option Z :=
  match Str.strip_by Str.is_int_space s with
  | String "-" digits => Z.opp <$> parse_magnitude digits
  | String "+" digits => parse_magnitude digits
  | digits => parse_magnitude digits
  end.

End PyInt.

(** ** Constants *)

Definition ADDRESS_COLUMNS : list string :=
  [ "first_name"; "last_name"; "email"; "line_1"; "line_2";
    "city"; "state"; "postal_code"; "country" ].

Definition REQUIRED_ADDRESS_COLUMNS : list string :=
  [ "first_name"; "email"; "line_1"; "city"; "state"; "postal_code";
    "country" ].

(** ** CSV rows *)

(** A row as [csv.DictReader] yields it: a field holds a string, or [None]
    when the record was shorter than the header. *)
Abbreviation row := (gmap string (option string)).

(** [row.get(key)] *)
Definition row_get (r : row) (key : string) : option string :=
  match r !! key with
  | Some v => v
  | None => None
  end.

(** [row[key]] *)
Definition row_index (r : row) (key : string) : res (option string) :=
  match r !! key with
  | Some v => Ok v
  | None => Raise (KeyError key)
  end.

(** [v or ""] for [v] a string or [None]. *)
Definition or_empty (v : option string) : string :=
  match v with
  | Some s => s
  | None => ""
  end.

(** [(row.get(key) or "").strip()] *)
Definition cell (r : row) (key : string) : string :=
  Str.strip (or_empty (row_get r key)).

(** [v.strip()] for [v] a string or [None]. *)
Definition strip_value (v : option string) : res string :=
  match v with
  | Some s => Ok (Str.strip s)
  | None => Raise AttributeError
  end.

(** ** Row validation *)

Definition msg_missing (row_num : Z) (col : string) : string :=
  "Row " +:+ pretty row_num +:+ ": missing required field '" +:+ col +:+ "'".

Definition msg_negative (row_num : Z) (sku : string) : string :=
  "Row " +:+ pretty row_num +:+ ": negative quantity in '" +:+ sku +:+ "'".

Definition msg_non_integer (row_num : Z) (raw sku : string) : string :=
  "Row " +:+ pretty row_num +:+ ": non-integer value '" +:+ raw +:+ "' in '"
  +:+ sku +:+ "'".

Definition msg_no_items (row_num : Z) : string :=
  "Row " +:+ pretty row_num +:+ ": no SKUs with quantity > 0".

(** Body of the loop over [REQUIRED_ADDRESS_COLUMNS]. *)
Definition check_required (r : row) (row_num : Z)
    (errors : list string) (col : string) : list string :=
  if Str.is_empty (cell r col) then errors ++ [msg_missing row_num col]
  else errors.

(** Body of the loop over [sku_names]; the state is [(errors, has_items)]. *)
Definition check_sku (r : row) (row_num : Z)
    (st : list string * bool) (sku : string) : list string * bool :=
  let '(errors, has_items) := st in
  let raw := cell r sku in
  if Str.is_empty raw then (errors, has_items)
  else
    match PyInt.of_string raw with
    | Some qty =>
        let errors :=
          if qty <? 0 then errors ++ [msg_negative row_num sku] else errors in
        let has_items := if 0 <? qty then true else has_items in
        (errors, has_items)
    | None => (errors ++ [msg_non_integer row_num raw sku], has_items)
    end.

Definition validate_row (r : row) (row_num : Z) (sku_names : list string)
  : list string :=
  let errors := foldl (check_required r row_num) [] REQUIRED_ADDRESS_COLUMNS in
  let '(errors, has_items) :=
    foldl (check_sku r row_num) (errors, false) sku_names in
  if has_items then errors else errors ++ [msg_no_items row_num].

(** ** Order building *)

Record content_line : Type := ContentLine {
  sku : string;
  quantity : Z
}.

Record warehouse_order : Type := WarehouseOrder {
  recipient_email : string;
  tags : json
}.

Record payload : Type := Payload {
  order : warehouse_order;
  address : gmap string string;
  contents : list content_line
}.

(** [int(v or 0)] for [v] a string or [None]: the empty string and [None]
    give [0], any other string goes through [int()]. *)
Definition int_or_zero (v : option string) : res Z :=
  match v with
  | None => Ok 0
  | Some s =>
      if Str.is_empty s then Ok 0
      else
        match PyInt.of_string s with
        | Some q => Ok q
        | None => Raise ValueError
        end
  end.

(** Body of the loop over [sku_names] in [build_order_payload]. *)
Definition add_content (r : row) (acc : list content_line) (name : string)
  : res (list content_line) :=
  v ← row_index r name;
  qty ← int_or_zero v;
  mret (if 0 <? qty then acc ++ [ContentLine name qty] else acc).

Fixpoint foldlM {A B : Type} (f : A -> B -> res A) (a : A) (l : list B)
  : res A :=
  match l with
  | [] => Ok a
  | b :: l' => a' ← f a b; foldlM f a' l'
  end.

(** [row[key].strip()] *)
Definition stripped (r : row) (key : string) : res string :=
  v ← row_index r key; strip_value v.

(** Drop an optional address key whose value is the empty string. *)
Definition drop_blank (key : string) (addr : gmap string string)
  : gmap string string :=
  match addr !! key with
  | Some s => if Str.is_empty s then delete key addr else addr
  | None => addr
  end.

Definition build_order_payload (r : row) (sku_names : list string)
    (tags : json) : res payload :=
  contents ← foldlM (add_content r) [] sku_names;
  email ← stripped r "email";
  first_name ← stripped r "first_name";
  let last_name := cell r "last_name" in
  line_1 ← stripped r "line_1";
  let line_2 := cell r "line_2" in
  city ← stripped r "city";
  state ← stripped r "state";
  postal_code ← stripped r "postal_code";
  country ← stripped r "country";
  let addr : gmap string string :=
    <["country" := country]> (<["postal_code" := postal_code]>
    (<["state" := state]> (<["city" := city]> (<["line_2" := line_2]>
    (<["line_1" := line_1]> (<["last_name" := last_name]>
    (<["first_name" := first_name]> ∅))))))) in
  let addr := drop_blank "last_name" addr in
  let addr := drop_blank "line_2" addr in
  mret (Payload (WarehouseOrder email tags) addr contents).

(** ** JSON values as Python objects *)

(** The dictionary an object denotes: of two members with one key the
    later one wins. *)
Definition py_dict (members : list (string * json)) : gmap string json :=
  list_to_map (reverse members).

(** Truth value of a Python object: [None], [False], zero, and the empty
    string, list and dict are false. *)
Definition truthy (v : json) : bool :=
  match v with
  | JNull => false
  | JBool b => b
  | JInt z => negb (z =? 0)
  | JFloat f => negb (PrimFloat.is_zero f)
  | JStr s => negb (Str.is_empty s)
  | JArr items => match items with [] => false | _ => true end
  | JObj members => match members with [] => false | _ => true end
  end.

(** [v == s] for a string [s]. *)
Definition eq_str (s : string) (v : json) : bool :=
  match v with
  | JStr s' => bool_decide (s' = s)
  | _ => false
  end.

(** [key in v] *)
Definition py_in (key : string) (v : json) : res bool :=
  match v with
  | JObj members => Ok (bool_decide (is_Some (py_dict members !! key)))
  | JArr items => Ok (existsb (eq_str key) items)
  | JStr s => Ok (Str.contains key s)
  | _ => Raise TypeError
  end.

(** [v[key]] for a string [key]. *)
Definition py_getitem (v : json) (key : string) : res json :=
  match v with
  | JObj members =>
      match py_dict members !! key with
      | Some x => Ok x
      | None => Raise (KeyError key)
      end
  | _ => Raise TypeError
  end.

(** [len(v)] *)
Definition py_len (v : json) : res Z :=
  match v with
  | JStr s => Ok (Z.of_nat (String.length s))
  | JArr items => Ok (Z.of_nat (length items))
  | JObj members => Ok (Z.of_nat (size (py_dict members)))
  | _ => Raise TypeError
  end.

(** [v.get(key)] where [v] must be a dict; an absent key gives [None]. *)
Definition py_get (v : json) (key : string) : res json :=
  match v with
  | JObj members => Ok (default JNull (py_dict members !! key))
  | _ => Raise AttributeError
  end.

(** [a or b] *)
Definition py_or (a b : json) : json := if truthy a then a else b.

(** ** Files and the network, as the program sees them *)

(** What [urllib.request.urlopen] followed by [resp.read()] can do: deliver
    a response, or raise. *)
Inductive urlopen_result : Type :=
  | Response (status : Z) (resp_bytes : text)
  | Raises (e : exn).

(** One record of a CSV file as [csv.reader] yields it.  A quoted field
    may contain line breaks, so a record covers [1 + extra_lines] lines of
    the file; a blank line is a record without fields. *)
Record csv_record : Type := CsvRecord {
  fields : list string;
  extra_lines : nat
}.

Record request : Type := Request {
  url : string;
  bearer : json;
  data : payload
}.

Abbreviation run_result := (gmap string json).

Record run_summary : Type := RunSummary {
  run_at : string;
  csv : string;
  total : Z;
  succeeded : Z;
  failed : Z;
  orders : list run_result
}.

Inductive level : Type := DEBUG | INFO | ERROR.

(** An argument of a logging call: a value, or the text that [json.dumps]
    makes of a value or of a payload. *)
Inductive log_arg : Type :=
  | Arg (v : json)
  | Dumps (v : json)
  | DumpsPayload (p : payload).

Inductive event : Type :=
  | EvMkdir (path : string)
  | EvLog (lvl : level) (fmt : string) (args : list log_arg)
  | EvOpenConfig (path : string)
  | EvOpenCsv (path : string)
  | EvUrlopen (req : request)
  | EvSleep
  | EvWriteResults (path : string) (summary : run_summary).

(** The environment of a run.  The answer of the network may depend on
    everything that happened before the request. *)
Record world : Type := World {
  script_dir : string;
  path_exists : string -> bool;
  config_file : string -> option text;
  csv_file : string -> option (list csv_record);
  urlopen : list event -> request -> urlopen_result;
  log_stamp : string;
  results_stamp : string;
  results_time : string
}.

(** ** Computations with a trace *)

Record IO (A : Type) : Type := MkIO {
  runIO : list event -> list event * res A
}.
Arguments MkIO {A} runIO.
Arguments runIO {A} _ _.

#[global] Instance io_ret : MRet IO := fun _ a => MkIO (fun tr => (tr, Ok a)).
#[global] Instance io_bind : MBind IO := fun _ _ f m =>
  MkIO (fun tr =>
    match runIO m tr with
    | (tr', Ok a) => runIO (f a) tr'
    | (tr', Raise e) => (tr', Raise e)
    end).

Definition emit (e : event) : IO unit := MkIO (fun tr => (tr ++ [e], Ok tt)).

Definition lift {A : Type} (r : res A) : IO A := MkIO (fun tr => (tr, r)).

Definition raise {A : Type} (e : exn) : IO A := lift (Raise e).

Definition log (lvl : level) (fmt : string) (args : list log_arg) : IO unit :=
  emit (EvLog lvl fmt args).

(** [for x in l: body(x)] *)
Fixpoint for_each {A : Type} (body : A -> IO unit) (l : list A) : IO unit :=
  match l with
  | [] => mret tt
  | x :: l' => body x ;; for_each body l'
  end.

(** [for x in l: st = body(st, x)] *)
Fixpoint for_fold {A S : Type} (body : S -> A -> IO S) (st : S) (l : list A)
  : IO S :=
  match l with
  | [] => mret st
  | x :: l' => st' ← body st x; for_fold body st' l'
  end.

(** [enumerate(l, start)] *)
Fixpoint enumerate {A : Type} (start : Z) (l : list A) : list (Z * A) :=
  match l with
  | [] => []
  | x :: l' => (start, x) :: enumerate (start + 1) l'
  end.

Definition py_str (s : string) : log_arg := Arg (JStr s).
Definition py_int (z : Z) : log_arg := Arg (JInt z).

(** ** Logging set-up *)

Definition setup_logging (w : world) (log_dir : string) : IO unit :=
  emit (EvMkdir log_dir) ;;
  let log_file := log_dir +:+ "/mail_cannon_" +:+ log_stamp w +:+ ".log" in
  log INFO "Log file: %s" [py_str log_file].

(** ** Config *)

Definition required_keys : list string :=
  [ "theseus_base_url"; "api_key"; "tags"; "skus" ].

Definition placeholder_key : string := "YOUR_API_KEY_HERE".

(** [json.load(f)] *)
Definition json_load (t : text) : res json :=
  match t with
  | JsonText v => Ok v
  | EmptyText | NotJson _ => Raise ValueError
  end.

(** [[k for k in keys if k not in config]] *)
Fixpoint missing_keys (config : json) (keys : list string)
  : res (list string) :=
  match keys with
  | [] => Ok []
  | k :: keys' =>
      present ← py_in k config;
      rest ← missing_keys config keys';
      mret (if (present : bool) then rest else k :: rest)
  end.

(** The checks of [load_config] on the parsed document. *)
Definition check_config (config : json) : res json :=
  missing ← missing_keys config required_keys;
  match missing with
  | _ :: _ =>
      Raise (SystemExit ("Config missing keys: " +:+ Str.join ", " missing))
  | [] =>
      skus ← py_getitem config "skus";
      n ← py_len skus;
      if negb (n =? 12) then
        Raise (SystemExit
                 ("Config must list exactly 12 SKUs, got " +:+ pretty n))
      else
        api_key ← py_getitem config "api_key";
        if eq_str placeholder_key api_key then
          Raise (SystemExit
                   "Set your real API key in config.json before running.")
        else Ok config
  end.

Definition load_config (w : world) (path : string) : IO json :=
  emit (EvOpenConfig path) ;;
  match config_file w path with
  | None => raise OSError
  | Some t => lift (config ← json_load t; check_config config)
  end.

(** ** CSV reading *)

(** A row of the file together with the lines that its record covers. *)
Record located_row : Type := Located {
  first_line : nat;
  last_line : nat;
  the_row : row
}.

(** The dictionary [csv.DictReader] makes of a record: [dict(zip(...))],
    then [None] for every field name the record is too short for.  (A
    record longer than the header also gets its surplus under the key
    [None], which no string key reaches.) *)
Definition dict_row (fieldnames record : list string) : row :=
  let d : row := list_to_map (reverse (zip fieldnames (Some <$> record))) in
  foldl (fun d key => <[key := None]> d) d (drop (length record) fieldnames).

(** The rows [csv.DictReader] yields after the header, [line] lines into
    the file; records without fields (blank lines) are passed over. *)
Fixpoint dict_rows (fieldnames : list string) (line : nat)
    (records : list csv_record) : list located_row :=
  match records with
  | [] => []
  | rec :: rest =>
      let last := (line + 1 + extra_lines rec)%nat in
      match fields rec with
      | [] => dict_rows fieldnames last rest
      | fs =>
          Located (line + 1) last (dict_row fieldnames fs)
          :: dict_rows fieldnames last rest
      end
  end.

(** [reader.fieldnames or []] *)
Definition fieldnames_of (records : list csv_record) : list string :=
  match records with
  | [] => []
  | header :: _ => fields header
  end.

(** All data rows of a file, with their lines. *)
Definition data_rows (records : list csv_record) : list located_row :=
  match records with
  | [] => []
  | header :: rest =>
      dict_rows (fields header) (1 + extra_lines header) rest
  end.

(** The condition of the row filter: [(r.get("email") or "").strip()]. *)
Definition retained (lr : located_row) : Prop :=
  cell (the_row lr) "email" ≠ "".

#[global] Instance retained_dec lr : Decision (retained lr) :=
  decide (cell (the_row lr) "email" ≠ "").

(** [sep.join(values)]: every value must be a string. *)
Fixpoint join_values (sep : string) (values : list json) : res string :=
  match values with
  | [] => Ok ""
  | v :: rest =>
      match v with
      | JStr s =>
          tl ← join_values sep rest;
          mret (match rest with [] => s | _ => s +:+ sep +:+ tl end)
      | _ => Raise TypeError
      end
  end.

(** [c not in headers] *)
Definition not_in_headers (headers : list string) (c : json) : bool :=
  negb (existsb (fun h => eq_str h c) headers).

Definition read_orders_csv (w : world) (path : string) (sku_names : json)
  : IO (list row) :=
  expected ← lift (match sku_names with
                   | JArr items => Ok ((JStr <$> ADDRESS_COLUMNS) ++ items)
                   | _ => Raise TypeError
                   end);
  emit (EvOpenCsv path) ;;
  match csv_file w path with
  | None => raise OSError
  | Some records =>
      let headers := fieldnames_of records in
      let missing_headers := List.filter (not_in_headers headers) expected in
      match missing_headers with
      | _ :: _ =>
          names ← lift (join_values ", " missing_headers);
          raise (SystemExit ("CSV is missing columns: " +:+ names))
      | [] =>
          let rows := the_row <$> filter retained (data_rows records) in
          log INFO "Read %d rows from %s (skipped empty/non-data rows)"
            [py_int (Z.of_nat (length rows)); py_str path] ;;
          mret rows
      end
  end.

(** The SKU names as strings.  Once [read_orders_csv] has returned, every
    entry of the configured list is a string (see [read_orders_csv_skus]). *)
Definition sku_strings (sku_names : json) : list string :=
  match sku_names with
  | JArr items =>
      omap (fun v => match v with JStr s => Some s | _ => None end) items
  | _ => []
  end.

(** ** API interaction *)

(** Whether [urllib.request.Request] finds a URL type: one or more
    characters other than [/] and [:], then a colon. *)
Fixpoint has_url_type (s : string) (seen : bool) : bool :=
  match s with
  | EmptyString => false
  | String c s' =>
      if bool_decide (c = ":"%char) then seen
      else if bool_decide (c = "/"%char) then false
      else has_url_type s' true
  end.

(** The network call proper: the request is recorded and the environment
    answers. *)
Definition send (w : world) (req : request) : IO urlopen_result :=
  MkIO (fun tr => (tr ++ [EvUrlopen req], Ok (urlopen w tr req))).

Definition create_order (w : world) (base_url api_key : json) (p : payload)
  : IO json :=
  base ← lift (match base_url with
               | JStr s => Ok (Str.rstrip_slash s)
               | _ => Raise AttributeError
               end);
  let url := base +:+ "/api/v1/warehouse_orders" in
  (if has_url_type url false then mret tt else raise ValueError) ;;
  let req := Request url api_key p in
  log DEBUG "POST %s" [py_str url] ;;
  log DEBUG "Request body: %s" [DumpsPayload p] ;;
  answer ← send w req;
  match answer with
  | Raises e => raise e
  | Response status resp_bytes =>
      body ← lift (match resp_bytes with
                   | EmptyText => Ok (JObj [])
                   | JsonText v => Ok v
                   | NotJson _ => Raise ValueError
                   end);
      log DEBUG "Response status: %d" [py_int status] ;;
      log DEBUG "Response body: %s" [Dumps body] ;;
      mret body
  end.

(** ** Main *)

(** [try: body except ...: handler]; a handler of [None] lets the
    exception pass. *)
Definition try_except {A : Type} (body : IO A)
    (handler : exn -> option (IO A)) : IO A :=
  MkIO (fun tr =>
    match runIO body tr with
    | (tr', Raise e) =>
        match handler e with
        | Some h => runIO h tr'
        | None => (tr', Raise e)
        end
    | done => done
    end).

(** The counters and the result list of the send loop. *)
Record tally : Type := Tally {
  n_succeeded : Z;
  n_failed : Z;
  results : list run_result
}.

Definition banner : string :=
  "============================================================".

(** [resp_body.get("id") or resp_body.get("hc_id") or "unknown"] *)
Definition order_id_of (resp_body : json) : res json :=
  id ← py_get resp_body "id";
  hc_id ← py_get resp_body "hc_id";
  mret (py_or (py_or id hc_id) (JStr "unknown")).

Definition success_result (idx : Z) (email : string) (order_id resp_body : json)
  : run_result :=
  <["response" := resp_body]> (<["order_id" := order_id]>
  (<["status" := JStr "success"]> (<["email" := JStr email]>
  (<["row" := JInt idx]> ∅)))).

Definition http_failure_result (idx : Z) (email : string) (code : Z)
    (error_body : json) : run_result :=
  <["error" := error_body]> (<["http_status" := JInt code]>
  (<["status" := JStr "failed"]> (<["email" := JStr email]>
  (<["row" := JInt idx]> ∅)))).

Definition transport_failure_result (idx : Z) (email reason : string)
  : run_result :=
  <["error" := JStr reason]> (<["status" := JStr "failed"]>
  (<["email" := JStr email]> (<["row" := JInt idx]> ∅))).

(** [str(exc)] for an [HTTPError]. *)
Definition http_error_str (code : Z) (msg : string) : string :=
  "HTTP Error " +:+ pretty code +:+ ": " +:+ msg.

(** Body of the send loop. *)
Definition send_row (w : world) (sku_names : list string)
    (tags base_url api_key : json) (nrows : Z) (st : tally) (item : Z * row)
  : IO tally :=
  let '(idx, r) := item in
  email ← lift (stripped r "email");
  p ← lift (build_order_payload r sku_names tags);
  log INFO "Row %d/%d | %s | %d SKU line(s) | sending..."
    [py_int (idx - 1); py_int nrows; py_str email;
     py_int (Z.of_nat (length (contents p)))] ;;
  st' ← try_except
    (resp_body ← create_order w base_url api_key p;
     order_id ← lift (order_id_of resp_body);
     log INFO "Row %d | SUCCESS | order_id=%s | email=%s"
       [py_int idx; Arg order_id; py_str email] ;;
     mret (Tally (n_succeeded st + 1) (n_failed st)
             (results st ++ [success_result idx email order_id resp_body])))
    (fun exc =>
       match exc with
       | HTTPError code msg body =>
           Some (
             let error_body :=
               match body with
               | JsonText v => v
               | _ => JObj [("raw", JStr (http_error_str code msg))]
               end in
             log ERROR "Row %d | FAILED  | email=%s | HTTP %d | %s"
               [py_int idx; py_str email; py_int code; Dumps error_body] ;;
             mret (Tally (n_succeeded st) (n_failed st + 1)
                     (results st
                      ++ [http_failure_result idx email code error_body])))
       | URLError reason =>
           Some (
             log ERROR "Row %d | FAILED  | email=%s | %s"
               [py_int idx; py_str email; py_str reason] ;;
             mret (Tally (n_succeeded st) (n_failed st + 1)
                     (results st
                      ++ [transport_failure_result idx email reason])))
       | _ => None
       end);
  emit EvSleep ;;
  mret st'.

(** Body of the dry-run loop. *)
Definition dry_run_row (sku_names : list string) (tags : json)
    (item : Z * row) : IO unit :=
  let '(idx, r) := item in
  p ← lift (build_order_payload r sku_names tags);
  email ← lift (stripped r "email");
  log INFO "[DRY RUN] Row %d (%s): would send %d SKU line(s)"
    [py_int idx; py_str email; py_int (Z.of_nat (length (contents p)))] ;;
  log DEBUG "[DRY RUN] Row %d payload: %s" [py_int idx; DumpsPayload p].

(** The validation pass: [all_errors.extend(validate_row(row, idx, ...))]
    for every row. *)
Definition validate_all (sku_names : list string) (rows : list row)
  : list string :=
  foldl (fun all_errors '(idx, r) => all_errors ++ validate_row r idx sku_names)
    [] (enumerate 2 rows).

Definition run (w : world) (csv_path config_path : string) (dry_run : bool)
  : IO unit :=
  let log_dir := script_dir w +:+ "/logs" in
  setup_logging w log_dir ;;
  log INFO banner [] ;;
  log INFO "mail-cannon starting" [] ;;
  log INFO "CSV:      %s" [py_str csv_path] ;;
  log INFO "Config:   %s" [py_str config_path] ;;
  log INFO "Dry run:  %s" [Arg (JBool dry_run)] ;;
  log INFO banner [] ;;
  config ← load_config w config_path;
  sku_names ← lift (py_getitem config "skus");
  tags ← lift (py_getitem config "tags");
  base_url ← lift (py_getitem config "theseus_base_url");
  rows ← read_orders_csv w csv_path sku_names;
  let skus := sku_strings sku_names in
  let nrows := Z.of_nat (length rows) in
  let all_errors := validate_all skus rows in
  match all_errors with
  | _ :: _ =>
      for_each (fun err => log ERROR err []) all_errors ;;
      raise (SystemExit
               ("Validation failed with "
                +:+ pretty (Z.of_nat (length all_errors))
                +:+ " error(s). Fix the CSV and retry."))
  | [] =>
      log INFO "All %d rows passed validation." [py_int nrows] ;;
      if dry_run then
        for_each (dry_run_row skus tags) (enumerate 2 rows) ;;
        log INFO "Dry run complete. No orders were created." []
      else
        api_key ← lift (py_getitem config "api_key");
        st ← for_fold (send_row w skus tags base_url api_key nrows)
               (Tally 0 0 []) (enumerate 2 rows);
        log INFO banner [] ;;
        log INFO "COMPLETE: %d succeeded, %d failed, %d total"
          [py_int (n_succeeded st); py_int (n_failed st); py_int nrows] ;;
        log INFO banner [] ;;
        let results_file :=
          log_dir +:+ "/mail_cannon_" +:+ results_stamp w +:+ "_results.json" in
        emit (EvWriteResults results_file
                (RunSummary (results_time w) csv_path nrows
                   (n_succeeded st) (n_failed st) (results st))) ;;
        log INFO "Results written to %s" [py_str results_file] ;;
        if negb (n_failed st =? 0) then
          raise (SystemExit
                   (pretty (n_failed st)
                    +:+ " order(s) failed. Check the log for details."))
        else mret tt
  end.

(** The parsed command line. *)
Record args : Type := Args {
  arg_csv : string;
  arg_config : string;
  arg_dry_run : bool
}.

Definition main (w : world) (a : args) : IO unit :=
  if negb (path_exists w (arg_csv a)) then
    raise (SystemExit ("CSV file not found: " +:+ arg_csv a))
  else if negb (path_exists w (arg_config a)) then
    raise (SystemExit ("Config file not found: " +:+ arg_config a))
  else run w (arg_csv a) (arg_config a) (arg_dry_run a).

(** The exit status of the process: an exception that escapes, [SystemExit]
    with its message included, ends it with status 1. *)
Definition exit_status (outcome : res unit) : Z :=
  match outcome with
  | Ok _ => 0
  | Raise _ => 1
  end.

(** Whether the trace holds a network call. *)
Definition is_network_call (e : event) : bool :=
  match e with
  | EvUrlopen _ => true
  | _ => false
  end.

Definition is_csv_read (e : event) : bool :=
  match e with
  | EvOpenCsv _ => true
  | _ => false
  end.

(** * Vocabulary of the statements *)

(** The required address columns that are blank in a row. *)
Definition missing_columns (r : row) : list string :=
  filter (fun col => cell r col = "") REQUIRED_ADDRESS_COLUMNS.

(** Every required address field is non-blank after trimming. *)
Definition required_present (r : row) : Prop :=
  Forall (fun col => cell r col ≠ "") REQUIRED_ADDRESS_COLUMNS.

(** The SKU column holds a positive integer quantity. *)
Definition positive_cell (r : row) (name : string) : Prop :=
  ∃ q, PyInt.of_string (cell r name) = Some q ∧ 0 < q.

(** The SKU column is blank or holds an integer that is not negative. *)
Definition acceptable_cell (r : row) (name : string) : Prop :=
  cell r name = "" ∨ ∃ q, PyInt.of_string (cell r name) = Some q ∧ 0 <= q.

(** The messages one SKU column contributes to the error list. *)
Definition sku_errors (r : row) (row_num : Z) (name : string) : list string :=
  let raw := cell r name in
  if Str.is_empty raw then []
  else
    match PyInt.of_string raw with
    | Some qty => if qty <? 0 then [msg_negative row_num name] else []
    | None => [msg_non_integer row_num raw name]
    end.

Definition has_quantity (r : row) (name : string) : bool :=
  let raw := cell r name in
  if Str.is_empty raw then false
  else
    match PyInt.of_string raw with
    | Some qty => 0 <? qty
    | None => false
    end.

(** A row with two SKU columns, and variants of it used as concrete inputs. *)
Definition sample_skus : list string := [ "SKU-A"; "SKU-B" ].

Definition sample_row : row :=
  list_to_map
    [ ("first_name", Some "Ada"); ("last_name", Some " ");
      ("email", Some " ada@example.org"); ("line_1", Some "1 Main St");
      ("line_2", Some ""); ("city", Some "Shelburne"); ("state", Some "VT");
      ("postal_code", Some "05482"); ("country", Some "US");
      ("SKU-A", Some "3"); ("SKU-B", Some "0") ].

(** The second quantity is a single space. *)
Definition space_quantity_row : row := <["SKU-B" := Some " "]> sample_row.

(** The second quantity is negative. *)
Definition negative_quantity_row : row := <["SKU-B" := Some "-1"]> sample_row.

(** The city is blank. *)
Definition no_city_row : row := <["city" := Some "  "]> sample_row.

(** How often a message occurs in an error list. *)
Definition occurrences (msg : string) (errors : list string) : nat :=
  length (filter (fun m => m = msg) errors).

(** What an optional address field looks like in the payload. *)
Definition optional_field (value : string) : option string :=
  if Str.is_empty value then None else Some value.

(** The payload of [sample_row]. *)
Definition sample_tags : json := JArr [ JStr "mail-cannon" ].

Definition sample_payload : payload :=
  Payload (WarehouseOrder "ada@example.org" sample_tags)
    (list_to_map
       [ ("first_name", "Ada"); ("line_1", "1 Main St");
         ("city", "Shelburne"); ("state", "VT"); ("postal_code", "05482");
         ("country", "US") ])
    [ ContentLine "SKU-A" 3 ].

(** [io_spec P Q m]: whatever happened before, [m] adds to the trace only
    events that satisfy [P], and a value it returns satisfies [Q]. *)
Definition io_spec {A : Type} (P : event → Prop) (Q : A → Prop) (m : IO A)
  : Prop :=
  ∀ tr, ∃ evs,
    (runIO m tr).1 = tr ++ evs
    ∧ Forall P evs
    ∧ ∀ a, (runIO m tr).2 = Ok a → Q a.

(** The value of [key] in a response body when the key is present and its
    value is not empty (not [None], [False], zero, or an empty string, list
    or dict). *)
Definition present_nonempty (body : gmap string json) (key : string)
  : option json :=
  match body !! key with
  | Some v => if truthy v then Some v else None
  | None => None
  end.

(** The order id as the claim words it: the ["id"] value, else the
    ["hc_id"] value, else ["unknown"]. *)
Definition claimed_order_id (members : list (string * json)) : json :=
  match present_nonempty (py_dict members) "id" with
  | Some v => v
  | None =>
      match present_nonempty (py_dict members) "hc_id" with
      | Some v => v
      | None => JStr "unknown"
      end
  end.

(** A result that reports success carries the order id of its response. *)
Definition result_ok (result : run_result) : Prop :=
  result !! "status" = Some (JStr "success") →
  ∃ members,
    result !! "response" = Some (JObj members)
    ∧ result !! "order_id" = Some (claimed_order_id members).

(** The result reports a failure. *)
Definition is_failed (result : run_result) : bool :=
  match result !! "status" with
  | Some (JStr status) => bool_decide (status = "failed")
  | _ => false
  end.

(** The result belongs to the row [item.2], numbered [item.1]. *)
Definition result_of_row (item : Z * row) (result : run_result) : Prop :=
  result !! "row" = Some (JInt item.1)
  ∧ (∃ email,
       stripped item.2 "email" = Ok email
       ∧ result !! "email" = Some (JStr email))
  ∧ result_ok result.

(** The state of the send loop after the rows [seen]. *)
Definition tally_ok (seen : list (Z * row)) (st : tally) : Prop :=
  n_succeeded st + n_failed st = Z.of_nat (length seen)
  ∧ n_failed st = Z.of_nat (length (List.filter is_failed (results st)))
  ∧ Forall2 result_of_row seen (results st).

(** The rows of a file that pass the filter of [read_orders_csv], in file
    order. *)
Definition retained_rows (records : list csv_record) : list located_row :=
  filter retained (data_rows records).

(** A summary of a run over the file at [csv_path]: the counters add up
    to the number of retained rows, [failed] counts the results that report
    a failure, and the results match the retained rows one by one, numbered
    from 2. *)
Definition summary_ok (w : world) (csv_path : string) (s : run_summary)
  : Prop :=
  ∃ records,
    csv_file w csv_path = Some records
    ∧ total s = Z.of_nat (length (retained_rows records))
    ∧ succeeded s + failed s = total s
    ∧ failed s = Z.of_nat (length (List.filter is_failed (orders s)))
    ∧ Forall2 result_of_row
        (enumerate 2 (the_row <$> retained_rows records)) (orders s).

(** [S] holds of the summary of every results file that is written. *)
Definition on_write (S : run_summary → Prop) (e : event) : Prop :=
  match e with
  | EvWriteResults _ s => S s
  | _ => True
  end.

(** What [load_config] makes of the file at [path]. *)
Definition loaded_config (w : world) (path : string) : res json :=
  match config_file w path with
  | None => Raise OSError
  | Some t => config ← json_load t; check_config config
  end.

(** The events of a run up to the loading of the configuration. *)
Definition preamble (w : world) (csv_path config_path : string)
    (dry_run : bool) : list event :=
  [ EvMkdir (script_dir w +:+ "/logs");
    EvLog INFO "Log file: %s"
      [py_str ((script_dir w +:+ "/logs") +:+ "/mail_cannon_"
               +:+ log_stamp w +:+ ".log")];
    EvLog INFO banner [];
    EvLog INFO "mail-cannon starting" [];
    EvLog INFO "CSV:      %s" [py_str csv_path];
    EvLog INFO "Config:   %s" [py_str config_path];
    EvLog INFO "Dry run:  %s" [Arg (JBool dry_run)];
    EvLog INFO banner [];
    EvOpenConfig config_path ].

(** The configuration loads and the CSV file is read: [config] is the
    parsed configuration, [items] its SKU list and [records] the records of
    the CSV file, whose header has every expected column. *)
Definition preflight (w : world) (csv_path config_path : string)
    (config : json) (items : list json) (records : list csv_record) : Prop :=
  loaded_config w config_path = Ok config
  ∧ py_getitem config "skus" = Ok (JArr items)
  ∧ csv_file w csv_path = Some records
  ∧ List.filter (not_in_headers (fieldnames_of records))
      ((JStr <$> ADDRESS_COLUMNS) ++ items) = [].

(** The events from the opening of the CSV file to the end of reading. *)
Definition csv_events (csv_path : string) (records : list csv_record)
  : list event :=
  [ EvOpenCsv csv_path;
    EvLog INFO "Read %d rows from %s (skipped empty/non-data rows)"
      [py_int (Z.of_nat (length (the_row <$> retained_rows records)));
       py_str csv_path] ].

(** The presence of a key in the configuration, in the claim's sense. *)
Definition has_key (config : json) (key : string) : bool :=
  match config with
  | JObj members => bool_decide (is_Some (py_dict members !! key))
  | _ => false
  end.

(** The number of entries of the configured SKU list, if it has one. *)
Definition sku_count (config : json) : option Z :=
  match py_getitem config "skus" ≫= py_len with
  | Ok n => Some n
  | Raise _ => None
  end.

Definition has_placeholder_key (config : json) : bool :=
  match py_getitem config "api_key" with
  | Ok v => eq_str placeholder_key v
  | Raise _ => false
  end.

(** The configuration has the four required keys, exactly 12 SKUs, and an
    API key other than the placeholder. *)
Definition config_valid (config : json) : bool :=
  forallb (has_key config) required_keys
  && bool_decide (sku_count config = Some 12)
  && negb (has_placeholder_key config).

(** The errors of one numbered row, and the log record of an error. *)
Definition row_errors (names : list string) (item : Z * row) : list string :=
  validate_row item.2 item.1 names.

Definition error_event (err : string) : event := EvLog ERROR err [].

(** A data row that the filter drops and that stands before [lr] in the
    file. *)
Definition dropped_earlier (lr x : located_row) : Prop :=
  ¬ retained x ∧ (first_line x < first_line lr)%nat.

#[global] Instance dropped_earlier_dec lr x : Decision (dropped_earlier lr x) :=
  decide (¬ retained x ∧ (first_line x < first_line lr)%nat).

(** The number of filtered-out rows that precede [lr] in the file. *)
Definition dropped_before (records : list csv_record) (lr : located_row)
  : nat :=
  length (filter (dropped_earlier lr) (data_rows records)).

(** The summaries of the results files that a trace records. *)
Definition written (tr : list event) : list run_summary :=
  omap (fun e => match e with
                 | EvWriteResults _ s => Some s
                 | _ => None
                 end) tr.

(** The requests that a trace records. *)
Definition network_calls (tr : list event) : list request :=
  omap (fun e => match e with
                 | EvUrlopen req => Some req
                 | _ => None
                 end) tr.

(** An answer of the network that [run] has a case for: a response whose
    body is empty or a JSON object, an HTTP-level error, or a
    transport-level error. *)
Definition answer_classified (answer : urlopen_result) : Prop :=
  match answer with
  | Response _ EmptyText => True
  | Response _ (JsonText (JObj _)) => True
  | Raises (HTTPError _ _ _) => True
  | Raises (URLError _) => True
  | _ => False
  end.

Definition answers_classified (w : world) : Prop :=
  ∀ tr req, answer_classified (urlopen w tr req).

(** The address that orders are posted to. *)
Definition request_url (base_url : string) : string :=
  Str.rstrip_slash base_url +:+ "/api/v1/warehouse_orders".

(** The configured base URL is a string from which a request can be made. *)
Definition request_formable (base_url : json) : Prop :=
  ∃ s, base_url = JStr s ∧ has_url_type (request_url s) false = true.

(** The request carries the payload of the row. *)
Definition request_of_row (names : list string) (tags : json)
    (item : Z * row) (req : request) : Prop :=
  build_order_payload item.2 names tags = Ok (data req).

(** A payload can be built from the row. *)
Definition buildable (names : list string) (tags : json) (r : row) : bool :=
  match build_order_payload r names tags with
  | Ok _ => true
  | Raise _ => false
  end.

(** ** A concrete environment

    Twelve SKUs; an order file with a row for Ada, a row without e-mail
    address and a row for Bob; a second order file where Bob has no city; a
    second configuration with eleven SKUs.  The network accepts Ada's order
    and rejects any other with status 422. *)
Definition world_skus : list string :=
  [ "SKU-A"; "SKU-B"; "SKU-C"; "SKU-D"; "SKU-E"; "SKU-F";
    "SKU-G"; "SKU-H"; "SKU-I"; "SKU-J"; "SKU-K"; "SKU-L" ].

Definition config_with (names : list string) : json :=
  JObj [ ("theseus_base_url", JStr "https://mail.example.org/");
         ("api_key", JStr "secret");
         ("tags", sample_tags);
         ("skus", JArr (JStr <$> names)) ].

Definition sample_config : json := config_with world_skus.

Definition short_config : json := config_with (take 11 world_skus).

Definition header_record : csv_record :=
  CsvRecord (ADDRESS_COLUMNS ++ world_skus) 0.

Definition ada_record : csv_record :=
  CsvRecord
    ([ "Ada"; "Lovelace"; "ada@example.org"; "1 Main St"; "";
       "Shelburne"; "VT"; "05482"; "US" ]
     ++ [ "3" ] ++ replicate 11 "") 0.

Definition empty_record : csv_record := CsvRecord (replicate 21 "") 0.

Definition bob_fields (city : string) : list string :=
  [ "Bob"; ""; "bob@example.org"; "2 Side St"; "Apt 4"; city; "VT";
    "05401"; "US" ]
  ++ [ "1"; "2" ] ++ replicate 10 "".

Definition bob_record : csv_record := CsvRecord (bob_fields "Burlington") 0.

Definition bob_no_city_record : csv_record := CsvRecord (bob_fields "") 0.

Definition good_csv : list csv_record :=
  [ header_record; ada_record; empty_record; bob_record ].

Definition bad_csv : list csv_record :=
  [ header_record; ada_record; bob_no_city_record ].

Definition ada_response : json := JObj [ ("id", JStr "ord_1") ].

Definition bob_error : json := JObj [ ("error", JStr "bad address") ].

Definition sample_world : world :=
  World "/opt/mail-cannon"
    (fun _ => true)
    (fun path =>
       if bool_decide (path = "config.json") then Some (JsonText sample_config)
       else if bool_decide (path = "short.json")
            then Some (JsonText short_config)
            else None)
    (fun path =>
       if bool_decide (path = "orders.csv") then Some good_csv
       else if bool_decide (path = "bad.csv") then Some bad_csv
            else None)
    (fun _ req =>
       if bool_decide (recipient_email (order (data req)) = "ada@example.org")
       then Response 201 (JsonText ada_response)
       else Raises (HTTPError 422 "Unprocessable Entity" (JsonText bob_error)))
    "20240101_000000" "20240101_000005" "2024-01-01T00:00:05+00:00".

(** Bob's row in [good_csv]: the fourth line of the file. *)
Definition bob_row : located_row :=
  Located 4 4 (dict_row (fields header_record) (fields bob_record)).

(** The summary of the run of [sample_world] over [good_csv]. *)
Definition sample_summary : run_summary :=
  RunSummary "2024-01-01T00:00:05+00:00" "orders.csv" 2 1 1
    [ success_result 2 "ada@example.org" (JStr "ord_1") ada_response;
      http_failure_result 3 "bob@example.org" 422 bob_error ].

(** The SKU column is in the row and its text has no white space around
    it. *)
Definition unpadded_cell (r : row) (name : string) : Prop :=
  ∃ v, r !! name = Some v ∧ ∀ s, v = Some s → Str.strip s = s.

(** [int(row[name] or 0)]: the quantity [build_order_payload] reads from
    a SKU column. *)
Definition quantity_of (r : row) (name : string) : res Z :=
  v ← row_index r name; int_or_zero v.

(** The content line of a SKU column, if its quantity is positive. *)
Definition line_of (r : row) (name : string) : option content_line :=
  match quantity_of r name with
  | Ok qty => if 0 <? qty then Some (ContentLine name qty) else None
  | Raise _ => None
  end.

(** The address columns that every payload carries. *)
Definition mandatory_address_keys : list string :=
  [ "first_name"; "line_1"; "city"; "state"; "postal_code"; "country" ].

(** What [create_order] makes of an answer of the network. *)
Definition order_outcome (answer : urlopen_result) : res json :=
  match answer with
  | Response _ EmptyText => Ok (JObj [])
  | Response _ (JsonText v) => Ok v
  | Response _ (NotJson _) => Raise ValueError
  | Raises e => Raise e
  end.

(** The exception, if any, that an answer of the network lets escape from
    the send loop: anything raised other than [HTTPError] and [URLError],
    a body that is not JSON, a JSON body that is not an object. *)
Definition uncaught (answer : urlopen_result) : option exn :=
  match answer with
  | Raises (HTTPError _ _ _) => None
  | Raises (URLError _) => None
  | Raises e => Some e
  | Response _ EmptyText => None
  | Response _ (NotJson _) => Some ValueError
  | Response _ (JsonText (JObj _)) => None
  | Response _ (JsonText _) => Some AttributeError
  end.

(** The body recorded for an HTTP error: the JSON of the error response,
    or the text of the exception when the response is not JSON. *)
Definition error_body_of (code : Z) (msg : string) (body : text) : json :=
  match body with
  | JsonText v => v
  | _ => JObj [("raw", JStr (http_error_str code msg))]
  end.

Definition is_sleep (e : event) : bool :=
  match e with
  | EvSleep => true
  | _ => false
  end.

(** The number of pauses that a trace records. *)
Definition sleeps (tr : list event) : nat := length (List.filter is_sleep tr).

(** The payload of Bob's row. *)
Definition bob_payload : payload :=
  Payload (WarehouseOrder "bob@example.org" sample_tags)
    (list_to_map
       [ ("first_name", "Bob"); ("line_1", "2 Side St"); ("line_2", "Apt 4");
         ("city", "Burlington"); ("state", "VT"); ("postal_code", "05401");
         ("country", "US") ])
    [ ContentLine "SKU-A" 1; ContentLine "SKU-B" 2 ].

(** [sample_world] with another network. *)
Definition with_network (answer : urlopen_result) : world :=
  World (script_dir sample_world) (path_exists sample_world)
    (config_file sample_world) (csv_file sample_world)
    (fun _ _ => answer)
    (log_stamp sample_world) (results_stamp sample_world)
    (results_time sample_world).

(** No route to the server. *)
Definition offline_world : world :=
  with_network (Raises (URLError "Name or service not known")).

(** A server that answers with a page that is not JSON. *)
Definition garbled_world : world :=
  with_network (Response 200 (NotJson "<html>")).

(** An event that leaves the world outside the log as it is: no network
    call, no pause, no results file. *)
Definition harmless (e : event) : Prop :=
  match e with
  | EvUrlopen _ | EvSleep | EvWriteResults _ _ => False
  | _ => True
  end.

(** The two log records of a row in a dry run. *)
Definition dry_run_events (names : list string) (tags : json)
    (item : Z * row) : list event :=
  match build_order_payload item.2 names tags with
  | Ok p =>
      [ EvLog INFO "[DRY RUN] Row %d (%s): would send %d SKU line(s)"
          [py_int item.1; py_str (cell item.2 "email");
           py_int (Z.of_nat (length (omap (line_of item.2) names)))];
        EvLog DEBUG "[DRY RUN] Row %d payload: %s"
          [py_int item.1; DumpsPayload p] ]
  | Raise _ => []
  end.

(** A network call is made only in a run whose configuration loaded, whose
    CSV file was read and whose retained rows all passed [validate_row]. *)
Definition after_validation (w : world) (csv_path config_path : string)
    (e : event) : Prop :=
  match e with
  | EvUrlopen _ =>
      ∃ config items records,
        loaded_config w config_path = Ok config
        ∧ py_getitem config "skus" = Ok (JArr items)
        ∧ csv_file w csv_path = Some records
        ∧ Forall (fun item => row_errors (sku_strings (JArr items)) item = [])
            (enumerate 2 (the_row <$> retained_rows records))
  | _ => True
  end.

(** * Strings *)

Lemma is_empty_true (s : string) : Str.is_empty s = true ↔ s = "".
Proof. destruct s; simpl; split; congruence. Qed.

Lemma is_empty_false (s : string) : Str.is_empty s = false ↔ s ≠ "".
Proof. destruct s; simpl; split; congruence. Qed.

Lemma append_cons (c : ascii) (s t : string) :
  String c s +:+ t = String c (s +:+ t).
Proof. reflexivity. Qed.

Lemma append_length (s t : string) :
  String.length (s +:+ t) = (String.length s + String.length t)%nat.
Proof.
  induction s as [|c s IH]; [done|].
  rewrite append_cons. simpl. by rewrite IH.
Qed.

Lemma append_inj_r (s1 s2 t : string) : s1 +:+ t = s2 +:+ t → s1 = s2.
Proof.
  revert s2. induction s1 as [|c s1 IH]; intros [|c' s2] H.
  - done.
  - apply (f_equal String.length) in H.
    rewrite !append_length in H. simpl in H. lia.
  - apply (f_equal String.length) in H.
    rewrite !append_length in H. simpl in H. lia.
  - rewrite !append_cons in H. injection H as -> H. f_equal. by apply IH.
Qed.

Lemma of_string_empty : PyInt.of_string "" = None.
Proof. reflexivity. Qed.

(** * The row validator *)

Section validate_row_facts.
Variables (r : row) (row_num : Z).

Lemma check_required_fold (cols : list string) (errors : list string) :
  foldl (check_required r row_num) errors cols
  = errors
    ++ (msg_missing row_num <$> filter (fun col => cell r col = "") cols).
Proof.
  revert errors. induction cols as [|col cols IH]; intros errors; simpl.
  - by rewrite app_nil_r.
  - rewrite IH. unfold check_required.
    destruct (Str.is_empty (cell r col)) eqn:E.
    + apply is_empty_true in E.
      rewrite filter_cons_True by done. by rewrite <- app_assoc.
    + apply is_empty_false in E. by rewrite filter_cons_False.
Qed.

Lemma check_sku_fold (names : list string) (errors : list string)
    (has_items : bool) :
  foldl (check_sku r row_num) (errors, has_items) names
  = (errors ++ flat_map (sku_errors r row_num) names,
     has_items || existsb (has_quantity r) names).
Proof.
  revert errors has_items.
  induction names as [|name names IH]; intros errors has_items; simpl.
  - by rewrite app_nil_r, orb_false_r.
  - unfold sku_errors at 1, has_quantity at 1.
    destruct (Str.is_empty (cell r name)); [by rewrite IH|].
    destruct (PyInt.of_string (cell r name)) as [qty|]; rewrite IH.
    + destruct (qty <? 0), (0 <? qty), has_items;
        by rewrite <- ?app_assoc.
    + by rewrite <- app_assoc, orb_false_l.
Qed.

(** The error list, part by part: the missing fields in the order of
    [REQUIRED_ADDRESS_COLUMNS], the defects of the SKU columns in their
    order, and the no-items message. *)
Lemma validate_row_eq (names : list string) :
  validate_row r row_num names
  = (msg_missing row_num <$> missing_columns r)
    ++ flat_map (sku_errors r row_num) names
    ++ (if existsb (has_quantity r) names then []
        else [msg_no_items row_num]).
Proof.
  unfold validate_row. rewrite check_required_fold, check_sku_fold.
  rewrite app_nil_l, orb_false_l. fold (missing_columns r).
  destruct (existsb _ _); by rewrite <- ?app_assoc, ?app_nil_r.
Qed.

Lemma has_quantity_positive (name : string) :
  has_quantity r name = true ↔ positive_cell r name.
Proof.
  unfold has_quantity, positive_cell.
  destruct (Str.is_empty (cell r name)) eqn:E.
  - apply is_empty_true in E. rewrite E, of_string_empty.
    split; [done|]. by intros (q & ? & _).
  - destruct (PyInt.of_string (cell r name)) as [qty|].
    + rewrite Z.ltb_lt. split; [eauto|]. by intros (q & [= ->] & ?).
    + split; [done|]. by intros (q & ? & _).
Qed.

Lemma sku_errors_nil (name : string) :
  sku_errors r row_num name = [] ↔ acceptable_cell r name.
Proof.
  unfold sku_errors, acceptable_cell.
  destruct (Str.is_empty (cell r name)) eqn:E.
  - apply is_empty_true in E. split; auto.
  - apply is_empty_false in E.
    destruct (PyInt.of_string (cell r name)) as [qty|].
    + destruct (Z.ltb_spec qty 0).
      * split; [done|]. intros [?|(q & [= <-] & ?)]; [done|lia].
      * split; [|done]. intros _. right. eauto.
    + split; [done|]. by intros [?|(q & ? & _)].
Qed.

Lemma missing_columns_nil : missing_columns r = [] ↔ required_present r.
Proof.
  unfold missing_columns, required_present.
  induction REQUIRED_ADDRESS_COLUMNS as [|col cols IH]; [done|].
  destruct (decide (cell r col = "")) as [E|E].
  - rewrite filter_cons_True by done. split; [done|].
    by intros [? _]%Forall_cons.
  - rewrite filter_cons_False by done. rewrite Forall_cons. tauto.
Qed.

(** When the validator accepts a row. *)
Lemma validate_row_nil (names : list string) :
  validate_row r row_num names = []
  ↔ required_present r
    ∧ Forall (acceptable_cell r) names
    ∧ Exists (positive_cell r) names.
Proof.
  rewrite validate_row_eq.
  rewrite <- missing_columns_nil.
  assert (flat_map (sku_errors r row_num) names = []
          ↔ Forall (acceptable_cell r) names) as <-.
  { induction names as [|name names IH]; simpl; [done|].
    rewrite Forall_cons, <- IH, <- sku_errors_nil.
    split; [by intros [? ?]%app_eq_nil|by intros [-> ->]]. }
  assert (existsb (has_quantity r) names = true
          ↔ Exists (positive_cell r) names) as <-.
  { rewrite existsb_exists, Exists_exists.
    split; intros (name & Hin & H); exists name;
      (split; [by apply list_elem_of_In|by apply has_quantity_positive]). }
  destruct (existsb _ _).
  - rewrite app_nil_r. split.
    + intros [E1 E2]%app_eq_nil. by destruct (missing_columns r).
    + intros (-> & -> & _). done.
  - split.
    + intros [_ [_ ?]%app_eq_nil]%app_eq_nil. done.
    + by intros (_ & _ & ?).
Qed.

End validate_row_facts.

(** ** Accepted rows *)

(** C5, as amended: a row whose required address fields are all non-blank
    after trimming, whose SKU columns are each blank or a non-negative
    integer, and which has at least one SKU column with a positive integer
    quantity, gets an empty error list. *)
Theorem validate_row_accepts (r : row) (row_num : Z) (names : list string) :
  required_present r →
  Forall (acceptable_cell r) names →
  Exists (positive_cell r) names →
  validate_row r row_num names = [].
Proof. intros. by apply validate_row_nil. Qed.

Lemma validate_row_accepts_witness :
  validate_row sample_row 2 sample_skus = [].
Proof.
  apply validate_row_accepts.
  - unfold required_present. apply (bool_decide_unpack _). by vm_compute.
  - apply Forall_cons_2; [|apply Forall_cons_2; [|apply Forall_nil_2]].
    + right. exists 3. split; [by vm_compute|lia].
    + right. exists 0. split; [by vm_compute|lia].
  - apply Exists_cons_hd. exists 3. split; [by vm_compute|lia].
Defined.

(** C5, as stated, fails: the required fields are present and one SKU
    column holds a positive quantity, yet a negative quantity in another
    column is reported. *)
Lemma validate_row_rejects_negative_sibling :
  required_present negative_quantity_row
  ∧ Exists (positive_cell negative_quantity_row) sample_skus
  ∧ validate_row negative_quantity_row 2 sample_skus
    = [ "Row 2: negative quantity in 'SKU-B'" ].
Proof.
  split; [|split].
  - unfold required_present. apply (bool_decide_unpack _). by vm_compute.
  - apply Exists_cons_hd. exists 3. split; [by vm_compute|lia].
  - by vm_compute.
Qed.

(** ** Missing fields *)

Lemma msg_missing_inj (row_num : Z) (c1 c2 : string) :
  msg_missing row_num c1 = msg_missing row_num c2 → c1 = c2.
Proof.
  unfold msg_missing. intros H.
  do 3 apply String.app_inj in H. by apply append_inj_r in H.
Qed.

Lemma msg_missing_negative (row_num : Z) (col name : string) :
  msg_negative row_num name ≠ msg_missing row_num col.
Proof.
  unfold msg_missing, msg_negative. intros H.
  do 2 apply String.app_inj in H. rewrite !append_cons in H. congruence.
Qed.

Lemma msg_missing_non_integer (row_num : Z) (col raw name : string) :
  msg_non_integer row_num raw name ≠ msg_missing row_num col.
Proof.
  unfold msg_missing, msg_non_integer. intros H.
  do 2 apply String.app_inj in H. rewrite !append_cons in H. congruence.
Qed.

Lemma msg_missing_no_items (row_num : Z) (col : string) :
  msg_no_items row_num ≠ msg_missing row_num col.
Proof.
  unfold msg_missing, msg_no_items. intros H.
  do 2 apply String.app_inj in H. rewrite !append_cons in H. congruence.
Qed.

Lemma occurrences_app (msg : string) (l1 l2 : list string) :
  occurrences msg (l1 ++ l2) = (occurrences msg l1 + occurrences msg l2)%nat.
Proof. unfold occurrences. by rewrite filter_app, length_app. Qed.

Lemma occurrences_none (msg : string) (l : list string) :
  Forall (fun m => m ≠ msg) l → occurrences msg l = 0%nat.
Proof.
  unfold occurrences. induction 1 as [|m l Hm _ IH]; [done|].
  by rewrite filter_cons_False.
Qed.

Lemma occurrences_missing (row_num : Z) (col : string) (cols : list string) :
  NoDup cols →
  occurrences (msg_missing row_num col) (msg_missing row_num <$> cols)
  = if decide (col ∈ cols) then 1%nat else 0%nat.
Proof.
  unfold occurrences. induction 1 as [|c cols Hc Hnd IH]; [done|].
  rewrite fmap_cons. destruct (decide (c = col)) as [->|Hne].
  - rewrite filter_cons_True by done. simpl. rewrite IH.
    rewrite decide_False by done. rewrite decide_True by left. done.
  - rewrite filter_cons_False by (intros ?%msg_missing_inj; done).
    rewrite IH. destruct (decide (col ∈ cols)) as [Hin|Hin].
    + rewrite decide_True by (by right). done.
    + rewrite decide_False; [done|]. by intros [?|?]%elem_of_cons.
Qed.

Lemma sku_errors_not_missing (r : row) (row_num : Z) (col : string)
    (names : list string) :
  Forall (fun m => m ≠ msg_missing row_num col)
    (flat_map (sku_errors r row_num) names).
Proof.
  induction names as [|name names IH]; simpl; [done|].
  apply Forall_app. split; [|done].
  unfold sku_errors. destruct (Str.is_empty _); [done|].
  destruct (PyInt.of_string _) as [qty|].
  - destruct (qty <? 0); repeat constructor. apply msg_missing_negative.
  - repeat constructor. apply msg_missing_non_integer.
Qed.

(** C6: the error list holds the missing-field message of a column exactly
    once when the column is a required address field that is blank after
    trimming, and not at all otherwise; the message spells out the row
    number and the field. *)
Theorem validate_row_missing_fields (r : row) (row_num : Z)
    (names : list string) (col : string) :
  occurrences (msg_missing row_num col) (validate_row r row_num names)
  = (if decide (col ∈ REQUIRED_ADDRESS_COLUMNS ∧ cell r col = "")
     then 1%nat else 0%nat)
  ∧ msg_missing row_num col
    = "Row " +:+ pretty row_num +:+ ": missing required field '" +:+ col
      +:+ "'".
Proof.
  split; [|done].
  rewrite validate_row_eq, !occurrences_app.
  rewrite (occurrences_none _ (flat_map _ _))
    by apply sku_errors_not_missing.
  rewrite (occurrences_none _ (if existsb _ _ then _ else _)).
  2:{ destruct (existsb _ _); repeat constructor.
      apply msg_missing_no_items. }
  rewrite occurrences_missing.
  2:{ unfold missing_columns. apply NoDup_filter.
      apply (bool_decide_unpack _). by vm_compute. }
  rewrite !Nat.add_0_r.
  unfold missing_columns.
  destruct (decide (col ∈ filter _ _)) as [Hin|Hin];
    rewrite list_elem_of_filter in Hin.
  - rewrite decide_True; [done|tauto].
  - rewrite decide_False; [done|tauto].
Qed.

(** * The payload builder *)

Lemma res_bind_Ok {A B : Type} (m : res A) (f : A → res B) (b : B) :
  m ≫= f = Ok b → ∃ a, m = Ok a ∧ f a = Ok b.
Proof. destruct m as [a|e]; [eauto|done]. Qed.

Lemma add_content_positive (r : row) (names : list string)
    (acc lines : list content_line) :
  foldlM (add_content r) acc names = Ok lines →
  Forall (fun c => 0 < quantity c) acc →
  Forall (fun c => 0 < quantity c) lines.
Proof.
  revert acc. induction names as [|name names IH]; intros acc H Hacc; simpl in H.
  - by injection H as <-.
  - apply res_bind_Ok in H as (acc' & Hstep & H).
    apply (IH acc'); [done|].
    unfold add_content in Hstep.
    apply res_bind_Ok in Hstep as (v & _ & Hstep).
    apply res_bind_Ok in Hstep as (qty & _ & Hstep).
    injection Hstep as <-.
    destruct (Z.ltb_spec 0 qty); [|done].
    apply Forall_app. split; [done|]. by repeat constructor.
Qed.

Lemma drop_blank_lookup (key key' : string) (addr : gmap string string) :
  drop_blank key addr !! key'
  = if decide (key = key') then
      match addr !! key with
      | Some s => if Str.is_empty s then None else Some s
      | None => None
      end
    else addr !! key'.
Proof.
  unfold drop_blank. destruct (decide (key = key')) as [<-|Hne].
  - destruct (addr !! key) as [s|] eqn:E; [|done].
    destruct (Str.is_empty s); [apply lookup_delete_eq|done].
  - destruct (addr !! key) as [s|]; [|done].
    destruct (Str.is_empty s); [by apply lookup_delete_ne|done].
Qed.

(** C7: when [build_order_payload] returns a payload, every content line
    has a positive quantity, and the address has the key [last_name]
    (likewise [line_2]) exactly when the source value is non-blank after
    trimming, in which case it holds the trimmed value. *)
Theorem build_order_payload_clean (r : row) (names : list string)
    (tags : json) (p : payload) :
  build_order_payload r names tags = Ok p →
  Forall (fun c => 0 < quantity c) (contents p)
  ∧ (cell r "last_name" = "" → address p !! "last_name" = None)
  ∧ (cell r "line_2" = "" → address p !! "line_2" = None)
  ∧ address p !! "last_name" = optional_field (cell r "last_name")
  ∧ address p !! "line_2" = optional_field (cell r "line_2").
Proof.
  unfold build_order_payload. intros H.
  apply res_bind_Ok in H as (lines & Hlines & H).
  do 7 (apply res_bind_Ok in H as (? & _ & H)).
  injection H as <-. simpl.
  assert (∀ a b c d e f g h : string,
    let addr : gmap string string :=
      <["country" := h]> (<["postal_code" := g]> (<["state" := f]>
      (<["city" := e]> (<["line_2" := d]> (<["line_1" := c]>
      (<["last_name" := b]> (<["first_name" := a]> ∅))))))) in
    drop_blank "line_2" (drop_blank "last_name" addr) !! "last_name"
    = optional_field b
    ∧ drop_blank "line_2" (drop_blank "last_name" addr) !! "line_2"
      = optional_field d) as Haddr.
  { intros. rewrite !drop_blank_lookup. subst addr. by vm_compute. }
  match goal with
  | |- context [drop_blank "line_2" (drop_blank "last_name" ?m)] =>
      match m with
      | <["country" := ?h]> (<[_ := ?g]> (<[_ := ?f]> (<[_ := ?e]>
          (<[_ := ?d]> (<[_ := ?c]> (<[_ := ?b]> (<[_ := ?a]> ∅))))))) =>
          destruct (Haddr a b c d e f g h) as [-> ->]
      end
  end.
  split; [by eapply add_content_positive|].
  unfold optional_field.
  repeat split; try done; by intros ->.
Qed.

Lemma build_order_payload_clean_witness :
  build_order_payload sample_row sample_skus sample_tags = Ok sample_payload
  ∧ Forall (fun c => 0 < quantity c) (contents sample_payload)
  ∧ address sample_payload !! "last_name" = None
  ∧ address sample_payload !! "line_2" = None.
Proof.
  assert (build_order_payload sample_row sample_skus sample_tags
          = Ok sample_payload) as H by (by vm_compute).
  destruct (build_order_payload_clean _ _ _ _ H) as (Hq & Hl & H2 & _).
  split; [done|]. split; [done|]. split; [apply Hl|apply H2]; by vm_compute.
Defined.

(** ** A validated row that cannot be built *)

(** C1 fails on the code: a row whose second quantity is a single space
    passes validation, which trims the cell and takes it for blank, but
    [build_order_payload] hands the untrimmed cell to [int()] and raises
    [ValueError]. *)
Theorem build_order_payload_rejects_validated_row :
  validate_row space_quantity_row 2 sample_skus = []
  ∧ build_order_payload space_quantity_row sample_skus sample_tags
    = Raise ValueError.
Proof. split; by vm_compute. Qed.

(** * Reasoning about computations with a trace *)

Lemma runIO_bind {A B : Type} (m : IO A) (f : A → IO B) (tr : list event) :
  runIO (m ≫= f) tr
  = match runIO m tr with
    | (tr', Ok a) => runIO (f a) tr'
    | (tr', Raise e) => (tr', Raise e)
    end.
Proof. reflexivity. Qed.

Lemma io_spec_weaken {A : Type} (P : event → Prop) (Q Q' : A → Prop)
    (m : IO A) :
  io_spec P Q m → (∀ a, Q a → Q' a) → io_spec P Q' m.
Proof.
  intros H HQ tr. destruct (H tr) as (evs & ? & ? & ?). exists evs. eauto.
Qed.

Lemma io_spec_lift {A : Type} (P : event → Prop) (r : res A) :
  io_spec P (fun a => r = Ok a) (lift r).
Proof. intros tr. exists []. simpl. by rewrite app_nil_r. Qed.

Lemma io_spec_ret {A : Type} (P : event → Prop) (a : A) :
  io_spec P (fun a' => a' = a) (mret a).
Proof.
  intros tr. exists []. simpl. rewrite app_nil_r.
  split; [done|]. split; [done|]. by intros a' [= ->].
Qed.

Lemma io_spec_raise {A : Type} (P : event → Prop) (Q : A → Prop) (e : exn) :
  io_spec P Q (raise e).
Proof. intros tr. exists []. simpl. by rewrite app_nil_r. Qed.

Lemma io_spec_emit (P : event → Prop) (e : event) :
  P e → io_spec P (fun _ => True) (emit e).
Proof. intros He tr. exists [e]. simpl. by repeat constructor. Qed.

Lemma io_spec_log (P : event → Prop) (lvl : level) (fmt : string)
    (args : list log_arg) :
  P (EvLog lvl fmt args) → io_spec P (fun _ => True) (log lvl fmt args).
Proof. apply io_spec_emit. Qed.

Lemma io_spec_send (P : event → Prop) (w : world) (req : request) :
  P (EvUrlopen req) → io_spec P (fun _ => True) (send w req).
Proof. intros He tr. exists [EvUrlopen req]. simpl. by repeat constructor. Qed.

Lemma io_spec_bind {A B : Type} (P : event → Prop) (Q : A → Prop)
    (R : B → Prop) (m : IO A) (f : A → IO B) :
  io_spec P Q m → (∀ a, Q a → io_spec P R (f a)) → io_spec P R (m ≫= f).
Proof.
  intros Hm Hf tr. rewrite runIO_bind.
  destruct (Hm tr) as (evs & Htr & Hevs & HQ).
  destruct (runIO m tr) as [tr' [a|e]]; simpl in *; subst tr'.
  - destruct (Hf a (HQ a eq_refl) (tr ++ evs)) as (evs' & Htr' & Hevs' & HR).
    exists (evs ++ evs'). rewrite Htr', app_assoc.
    split; [done|]. split; [by apply Forall_app|done].
  - exists evs. done.
Qed.

Lemma io_spec_try_except {A : Type} (P : event → Prop) (Q : A → Prop)
    (body : IO A) (handler : exn → option (IO A)) :
  io_spec P Q body →
  (∀ e, match handler e with Some h => io_spec P Q h | None => True end) →
  io_spec P Q (try_except body handler).
Proof.
  intros Hbody Hh tr. unfold try_except. simpl.
  destruct (Hbody tr) as (evs & Htr & Hevs & HQ).
  destruct (runIO body tr) as [tr' [a|e]]; simpl in *; subst tr'.
  - exists evs. done.
  - specialize (Hh e). destruct (handler e) as [h|]; [|by exists evs].
    destruct (Hh (tr ++ evs)) as (evs' & Htr' & Hevs' & HR).
    exists (evs ++ evs'). rewrite Htr', app_assoc.
    split; [done|]. split; [by apply Forall_app|done].
Qed.

Lemma io_spec_for_each {A : Type} (P : event → Prop) (body : A → IO unit)
    (l : list A) :
  (∀ x, io_spec P (fun _ => True) (body x)) →
  io_spec P (fun _ => True) (for_each body l).
Proof.
  intros Hbody. induction l as [|x l IH]; simpl.
  - eapply io_spec_weaken; [apply io_spec_ret|done].
  - eapply io_spec_bind; [apply Hbody|]. intros _ _. apply IH.
Qed.

(** The rule of the accumulating loop: the invariant speaks of the items
    gone through so far. *)
Lemma io_spec_for_fold {A S : Type} (P : event → Prop)
    (I : list A → S → Prop) (body : S → A → IO S) (l : list A) :
  (∀ seen x st, I seen st → io_spec P (I (seen ++ [x])) (body st x)) →
  ∀ seen st, I seen st → io_spec P (I (seen ++ l)) (for_fold body st l).
Proof.
  intros Hbody. induction l as [|x l IH]; intros seen st Hst; simpl.
  - rewrite app_nil_r.
    eapply io_spec_weaken; [apply io_spec_ret|]. by intros ? ->.
  - eapply io_spec_bind; [by apply Hbody|].
    intros st' Hst'. rewrite (cons_middle x), app_assoc. by apply IH.
Qed.

(** Computations that write no results file. *)
Ltac io_quiet :=
  cbv zeta;
  lazymatch goal with
  | |- io_spec _ _ (for_fold _ _ _ ≫= _) => idtac
  | |- io_spec _ _ (_ ≫= _) =>
      eapply (io_spec_bind _ (fun _ => True)); [io_quiet|intros ? _; io_quiet]
  | |- io_spec _ _ (for_each _ _) =>
      apply io_spec_for_each; intros ?; io_quiet
  | |- io_spec _ _ (log _ _ _) =>
      eapply io_spec_weaken; [apply io_spec_log; exact I|done]
  | |- io_spec _ _ (emit _) =>
      eapply io_spec_weaken; [apply io_spec_emit; exact I|done]
  | |- io_spec _ _ (send _ _) =>
      eapply io_spec_weaken; [apply io_spec_send; exact I|done]
  | |- io_spec _ _ (lift _) =>
      eapply io_spec_weaken; [apply io_spec_lift|done]
  | |- io_spec _ _ (raise _) => apply io_spec_raise
  | |- io_spec _ _ (mret _) =>
      eapply io_spec_weaken; [apply io_spec_ret|done]
  | |- io_spec _ _ (match ?x with _ => _ end) => destruct x; io_quiet
  | _ => idtac
  end.

Section run_facts.
Variables (w : world) (S : run_summary → Prop).

Lemma setup_logging_quiet (log_dir : string) :
  io_spec (on_write S) (fun _ => True) (setup_logging w log_dir).
Proof. unfold setup_logging. io_quiet. Qed.

Lemma load_config_quiet (path : string) :
  io_spec (on_write S) (fun _ => True) (load_config w path).
Proof. unfold load_config. io_quiet. Qed.

Lemma read_orders_csv_quiet (path : string) (sku_names : json) :
  io_spec (on_write S) (fun _ => True) (read_orders_csv w path sku_names).
Proof. unfold read_orders_csv. io_quiet. Qed.

Lemma create_order_quiet (base_url api_key : json) (p : payload) :
  io_spec (on_write S) (fun _ => True) (create_order w base_url api_key p).
Proof. unfold create_order. io_quiet. Qed.

Lemma dry_run_row_quiet (names : list string) (tags : json) (item : Z * row) :
  io_spec (on_write S) (fun _ => True) (dry_run_row names tags item).
Proof. unfold dry_run_row. io_quiet. Qed.

End run_facts.

(** * Results of the send loop *)

Lemma success_result_lookup (idx : Z) (email : string) (order_id body : json) :
  let result := success_result idx email order_id body in
  result !! "row" = Some (JInt idx)
  ∧ result !! "status" = Some (JStr "success")
  ∧ result !! "email" = Some (JStr email)
  ∧ result !! "order_id" = Some order_id
  ∧ result !! "response" = Some body
  ∧ is_failed result = false.
Proof. by vm_compute. Qed.

Lemma http_failure_result_lookup (idx : Z) (email : string) (code : Z)
    (error_body : json) :
  let result := http_failure_result idx email code error_body in
  result !! "row" = Some (JInt idx)
  ∧ result !! "status" = Some (JStr "failed")
  ∧ result !! "email" = Some (JStr email)
  ∧ result !! "order_id" = None
  ∧ is_failed result = true.
Proof. by vm_compute. Qed.

Lemma transport_failure_result_lookup (idx : Z) (email reason : string) :
  let result := transport_failure_result idx email reason in
  result !! "row" = Some (JInt idx)
  ∧ result !! "status" = Some (JStr "failed")
  ∧ result !! "email" = Some (JStr email)
  ∧ result !! "order_id" = None
  ∧ is_failed result = true.
Proof. by vm_compute. Qed.

(** The order id the code computes is the one the claim describes. *)
Lemma order_id_of_claimed (body order_id : json) :
  order_id_of body = Ok order_id →
  ∃ members, body = JObj members ∧ order_id = claimed_order_id members.
Proof.
  destruct body as [| | | | | |members]; try done.
  intros [= <-]. exists members. split; [done|].
  unfold claimed_order_id, present_nonempty, py_or.
  destruct (py_dict members !! "id") as [id|]; simpl.
  - destruct (truthy id) eqn:Eid; simpl; [by rewrite Eid|].
    destruct (py_dict members !! "hc_id") as [hc|]; simpl; [|done].
    by destruct (truthy hc) eqn:Ehc; simpl; rewrite ?Ehc.
  - destruct (py_dict members !! "hc_id") as [hc|]; simpl; [|done].
    by destruct (truthy hc) eqn:Ehc; simpl; rewrite ?Ehc.
Qed.

Lemma order_id_of_Ok (members : list (string * json)) :
  order_id_of (JObj members) = Ok (claimed_order_id members).
Proof.
  destruct (order_id_of (JObj members)) as [v|e] eqn:E; [|done].
  apply order_id_of_claimed in E as (members' & [= <-] & ->). done.
Qed.

Section send_loop.
Variables (w : world) (S : run_summary → Prop) (names : list string).
Variables (tags base_url api_key : json) (nrows : Z).

(** One turn of the send loop adds one result, for the row at hand, and
    counts it as a success or as a failure. *)
Lemma send_row_spec (st : tally) (idx : Z) (r : row) :
  io_spec (on_write S)
    (fun st' =>
       n_succeeded st' + n_failed st' = n_succeeded st + n_failed st + 1
       ∧ ∃ result,
           results st' = results st ++ [result]
           ∧ n_failed st'
             = n_failed st + (if is_failed result then 1 else 0)
           ∧ result_of_row (idx, r) result)
    (send_row w names tags base_url api_key nrows st (idx, r)).
Proof.
  unfold send_row.
  eapply io_spec_bind; [apply io_spec_lift|intros email Hemail].
  eapply (io_spec_bind _ (fun _ => True)); [io_quiet|intros p _].
  eapply (io_spec_bind _ (fun _ => True)); [io_quiet|intros _ _].
  eapply io_spec_bind.
  2:{ intros st' Hst'.
      eapply (io_spec_bind _ (fun _ => True)); [io_quiet|intros _ _].
      eapply io_spec_weaken; [apply io_spec_ret|]. intros ? ->. exact Hst'. }
  apply io_spec_try_except.
  - eapply (io_spec_bind _ (fun _ => True));
      [apply create_order_quiet|intros body _].
    eapply io_spec_bind; [apply io_spec_lift|intros order_id Hid].
    eapply (io_spec_bind _ (fun _ => True)); [io_quiet|intros _ _].
    eapply io_spec_weaken; [apply io_spec_ret|]. intros ? ->. simpl.
    split; [lia|]. eexists. split; [done|].
    apply order_id_of_claimed in Hid as (members & -> & ->).
    destruct (success_result_lookup idx email (claimed_order_id members)
                (JObj members)) as (Hrow & _ & Hmail & Hid & Hresp & ->).
    split; [simpl; lia|].
    split; [done|]. split; [by exists email|]. intros _. by exists members.
  - intros e. destruct e; try exact I; cbv zeta.
    + eapply (io_spec_bind _ (fun _ => True)); [io_quiet|intros _ _].
      eapply io_spec_weaken; [apply io_spec_ret|]. intros ? ->. simpl.
      split; [lia|]. eexists. split; [done|].
      match goal with
      | |- context [http_failure_result _ _ _ ?b] =>
          destruct (http_failure_result_lookup idx email code b)
            as (Hrow & Hst & Hmail & _ & ->)
      end.
      split; [done|].
      split; [done|]. split; [by exists email|].
      intros Hs. rewrite Hst in Hs. done.
    + eapply (io_spec_bind _ (fun _ => True)); [io_quiet|intros _ _].
      eapply io_spec_weaken; [apply io_spec_ret|]. intros ? ->. simpl.
      split; [lia|]. eexists. split; [done|].
      destruct (transport_failure_result_lookup idx email reason)
        as (Hrow & Hst & Hmail & _ & ->).
      split; [done|].
      split; [done|]. split; [by exists email|].
      intros Hs. rewrite Hst in Hs. done.
Qed.

(** The invariant of the send loop. *)
Lemma send_loop_spec (items : list (Z * row)) :
  io_spec (on_write S) (tally_ok items)
    (for_fold (send_row w names tags base_url api_key nrows)
       (Tally 0 0 []) items).
Proof.
  change items with ([] ++ items) at 1.
  apply io_spec_for_fold; [|by split; [|split; [|constructor]]].
  intros seen [idx r] st (Hcount & Hfailed & Hresults).
  eapply io_spec_weaken; [apply send_row_spec|].
  intros st' (Hcount' & result & Hres & Hfailed' & Hrow).
  split; [|split].
  - rewrite length_app. simpl. lia.
  - rewrite Hres, List.filter_app, length_app, Hfailed'. simpl.
    destruct (is_failed result); simpl; lia.
  - rewrite Hres. apply Forall2_app; [done|].
    constructor; [done|constructor].
Qed.

End send_loop.

(** * The run as a whole *)

Lemma enumerate_length {A : Type} (start : Z) (l : list A) :
  length (enumerate start l) = length l.
Proof.
  revert start. induction l as [|x l IH]; intros start; simpl; [done|].
  by rewrite IH.
Qed.

Lemma enumerate_lookup {A : Type} (start : Z) (l : list A) (k : nat)
    (idx : Z) (x : A) :
  enumerate start l !! k = Some (idx, x) ↔
  idx = start + Z.of_nat k ∧ l !! k = Some x.
Proof.
  revert start k. induction l as [|y l IH]; intros start k; simpl.
  - rewrite !lookup_nil. split; [done|by intros [_ ?]].
  - destruct k as [|k]; simpl.
    + split; [intros [= <- <-]; split; [lia|done]|].
      intros [-> [= ->]]. do 2 f_equal. lia.
    + rewrite IH. split; intros [-> ?]; split; try done; lia.
Qed.

Lemma enumerate_elem_of {A : Type} (start : Z) (l : list A) (idx : Z)
    (x : A) :
  (idx, x) ∈ enumerate start l → x ∈ l.
Proof.
  intros [k Hk]%list_elem_of_lookup. apply enumerate_lookup in Hk as [_ Hk].
  by eapply list_elem_of_lookup_2.
Qed.

(** What [read_orders_csv] returns: the retained rows of the file. *)
Lemma read_orders_csv_spec (w : world) (S : run_summary → Prop)
    (path : string) (sku_names : json) :
  io_spec (on_write S)
    (fun rows =>
       ∃ records,
         csv_file w path = Some records
         ∧ rows = the_row <$> retained_rows records)
    (read_orders_csv w path sku_names).
Proof.
  unfold read_orders_csv.
  eapply (io_spec_bind _ (fun _ => True)); [io_quiet|intros expected _].
  eapply (io_spec_bind _ (fun _ => True)); [io_quiet|intros _ _].
  destruct (csv_file w path) as [records|]; [|apply io_spec_raise].
  destruct (List.filter _ _); [|io_quiet].
  eapply (io_spec_bind _ (fun _ => True)); [io_quiet|intros _ _].
  eapply io_spec_weaken; [apply io_spec_ret|]. intros ? ->. by exists records.
Qed.

(** Whatever the environment, a results file that [run] writes holds a
    sound summary. *)
Lemma run_writes_ok (w : world) (csv_path config_path : string)
    (dry_run : bool) :
  io_spec (on_write (summary_ok w csv_path)) (fun _ => True)
    (run w csv_path config_path dry_run).
Proof.
  unfold run. cbv zeta.
  do 8 (eapply (io_spec_bind _ (fun _ => True));
        [first [apply setup_logging_quiet | apply load_config_quiet
               | io_quiet]
        |intros ? _]).
  do 3 (eapply (io_spec_bind _ (fun _ => True)); [io_quiet|intros ? _]).
  eapply io_spec_bind; [apply read_orders_csv_spec|].
  intros rows (records & Hfile & ->).
  destruct (validate_all _ _); [|io_quiet].
  eapply (io_spec_bind _ (fun _ => True)); [io_quiet|intros _ _].
  destruct dry_run.
  { io_quiet. apply dry_run_row_quiet. }
  eapply (io_spec_bind _ (fun _ => True)); [io_quiet|intros api_key _].
  eapply io_spec_bind; [apply send_loop_spec|].
  intros st (Hcount & Hfailed & Hresults).
  do 3 (eapply (io_spec_bind _ (fun _ => True)); [io_quiet|intros _ _]).
  eapply (io_spec_bind _ (fun _ => True)); [|intros _ _; io_quiet].
  eapply io_spec_weaken; [apply io_spec_emit|done].
  exists records. simpl.
  rewrite enumerate_length in Hcount. rewrite length_fmap in *.
  done.
Qed.

(** * Pre-flight *)

Lemma load_config_run (w : world) (path : string) (tr : list event) :
  runIO (load_config w path) tr
  = (tr ++ [EvOpenConfig path], loaded_config w path).
Proof.
  unfold load_config, loaded_config. rewrite runIO_bind. simpl.
  by destruct (config_file w path).
Qed.

Lemma runIO_bind_Ok {A B : Type} (m : IO A) (f : A → IO B)
    (tr tr' : list event) (a : A) :
  runIO m tr = (tr', Ok a) → runIO (m ≫= f) tr = runIO (f a) tr'.
Proof. intros H. by rewrite runIO_bind, H. Qed.

Lemma runIO_bind_Raise {A B : Type} (m : IO A) (f : A → IO B)
    (tr tr' : list event) (e : exn) :
  runIO m tr = (tr', Raise e) → runIO (m ≫= f) tr = (tr', Raise e).
Proof. intros H. by rewrite runIO_bind, H. Qed.

Lemma runIO_lift {A : Type} (r : res A) (tr : list event) :
  runIO (lift r) tr = (tr, r).
Proof. reflexivity. Qed.

(** One step of a run whose first computation returns. *)
Ltac io_step := erewrite runIO_bind_Ok; [|reflexivity].

(** The run up to the loading of the configuration. *)
Lemma run_preamble (w : world) (csv_path config_path : string)
    (dry_run : bool) :
  ∃ rest : json → IO unit,
    run w csv_path config_path dry_run
    = (setup_logging w (script_dir w +:+ "/logs") ;;
       log INFO banner [] ;;
       log INFO "mail-cannon starting" [] ;;
       log INFO "CSV:      %s" [py_str csv_path] ;;
       log INFO "Config:   %s" [py_str config_path] ;;
       log INFO "Dry run:  %s" [Arg (JBool dry_run)] ;;
       log INFO banner [] ;;
       load_config w config_path ≫= rest).
Proof. eexists. reflexivity. Qed.

Lemma run_config_failure (w : world) (csv_path config_path : string)
    (dry_run : bool) (e : exn) :
  loaded_config w config_path = Raise e →
  runIO (run w csv_path config_path dry_run) []
  = (preamble w csv_path config_path dry_run, Raise e).
Proof.
  intros H. destruct (run_preamble w csv_path config_path dry_run)
    as [rest ->].
  do 7 io_step.
  erewrite runIO_bind_Raise; [reflexivity|].
  rewrite load_config_run, H. reflexivity.
Qed.

(** * The config loader *)

Lemma missing_keys_object (members : list (string * json))
    (keys : list string) :
  missing_keys (JObj members) keys
  = Ok (List.filter (fun k => negb (has_key (JObj members) k)) keys).
Proof.
  induction keys as [|k keys IH]; [done|].
  simpl. rewrite IH. simpl. by destruct (bool_decide _).
Qed.

Lemma filter_negb_nil {A : Type} (f : A → bool) (l : list A) :
  List.filter (fun x => negb (f x)) l = [] ↔ forallb f l = true.
Proof.
  induction l as [|x l IH]; simpl; [done|].
  destruct (f x); simpl; [done|]. split; discriminate.
Qed.

Lemma check_config_non_object (config : json) :
  (∀ members, config ≠ JObj members) → ∃ e, check_config config = Raise e.
Proof.
  intros Hobj. unfold check_config.
  destruct config as [| | | |s|items|members]; try (by eexists).
  - destruct (missing_keys (JStr s) required_keys) as [[|]|]; by eexists.
  - destruct (missing_keys (JArr items) required_keys) as [[|]|]; by eexists.
  - by destruct (Hobj members).
Qed.

Lemma has_key_getitem (config : json) (key : string) :
  has_key config key = true → ∃ v, py_getitem config key = Ok v.
Proof.
  destruct config as [| | | | | |members]; try done. simpl.
  intros [v Hv]%bool_decide_eq_true. rewrite Hv. by exists v.
Qed.

(** [check_config] returns exactly the valid configurations, unchanged. *)
Lemma check_config_Ok (config config' : json) :
  check_config config = Ok config' ↔
  config' = config ∧ config_valid config = true.
Proof.
  assert ((∃ members, config = JObj members)
          ∨ ∀ members, config ≠ JObj members) as [[members ->]|Hobj].
  { destruct config; try (by right); left; by eexists. }
  2:{ destruct (check_config_non_object config Hobj) as [e ->].
      split; [done|]. intros [_ Hv]. exfalso.
      unfold config_valid in Hv. destruct config; try done.
      by eapply Hobj. }
  unfold check_config, config_valid, sku_count, has_placeholder_key.
  rewrite missing_keys_object.
  destruct (List.filter _ required_keys) as [|k ks] eqn:Hmiss;
    cbn [mbind res_bind].
  - apply filter_negb_nil in Hmiss. rewrite Hmiss.
    destruct (py_getitem (JObj members) "skus") as [skus|];
      cbn [mbind res_bind andb].
    2:{ split; [done|]. intros [_ H].
        rewrite bool_decide_false in H by congruence. done. }
    destruct (py_len skus) as [n|]; cbn [mbind res_bind].
    2:{ split; [done|]. intros [_ H].
        rewrite bool_decide_false in H by congruence. done. }
    destruct (Z.eqb_spec n 12) as [->|Hn]; cbn [negb].
    + rewrite bool_decide_true by done.
      destruct (has_key_getitem (JObj members) "api_key") as [key ->].
      { rewrite forallb_forall in Hmiss. apply Hmiss. simpl. tauto. }
      cbn [mbind res_bind andb negb].
      destruct (eq_str placeholder_key key); cbn [negb].
      * split; [done|by intros [_ ?]].
      * split; [by intros [= <-]|by intros [-> _]].
    + split; [done|]. intros [_ H].
      rewrite bool_decide_false in H by congruence. done.
  - assert (forallb (has_key (JObj members)) required_keys = false) as ->.
    { apply not_true_is_false. intros H%filter_negb_nil. congruence. }
    split; [done|by intros [_ ?]].
Qed.

Lemma check_config_invalid (config : json) :
  config_valid config = false → ∃ e, check_config config = Raise e.
Proof.
  intros Hv. destruct (check_config config) as [c|e] eqn:E; [|by eexists].
  apply check_config_Ok in E as [_ ?]. congruence.
Qed.

(** C8: given the parsed configuration file, [load_config] returns it
    when it has the four required keys, exactly 12 SKUs and an API key
    other than the placeholder; otherwise [load_config] raises, and then
    [run] ends with that exception without having opened the CSV file. *)
Theorem load_config_spec (w : world) (path : string) (config : json)
    (tr : list event) :
  config_file w path = Some (JsonText config) →
  (config_valid config = true →
   (runIO (load_config w path) tr).2 = Ok config)
  ∧ (config_valid config = false →
     ∃ e,
       (runIO (load_config w path) tr).2 = Raise e
       ∧ ∀ csv_path dry_run,
           (runIO (run w csv_path path dry_run) []).2 = Raise e
           ∧ Forall (fun ev => is_csv_read ev = false)
               (runIO (run w csv_path path dry_run) []).1).
Proof.
  intros Hfile. rewrite load_config_run. cbn [snd].
  assert (loaded_config w path = check_config config) as Hload.
  { unfold loaded_config. by rewrite Hfile. }
  split.
  - intros Hv. rewrite Hload. apply check_config_Ok. done.
  - intros Hv. destruct (check_config_invalid config Hv) as [e He].
    exists e. rewrite Hload. split; [done|]. intros csv_path dry_run.
    rewrite (run_config_failure w csv_path path dry_run e) by congruence.
    split; [done|]. cbn [fst]. unfold preamble. by repeat constructor.
Qed.

(** * Validation before sending *)

Lemma validate_all_eq (names : list string) (rows : list row) :
  validate_all names rows
  = concat (row_errors names <$> enumerate 2 rows).
Proof.
  unfold validate_all. generalize (enumerate 2 rows). intros items.
  assert (∀ acc,
    foldl (fun all_errors '(idx, r) => all_errors ++ validate_row r idx names)
      acc items
    = acc ++ concat (row_errors names <$> items)) as H.
  { induction items as [|[idx r] items IH]; intros acc; simpl.
    - by rewrite app_nil_r.
    - rewrite IH. by rewrite <- app_assoc. }
  apply (H []).
Qed.

Lemma loaded_config_valid (w : world) (path : string) (config : json) :
  loaded_config w path = Ok config → config_valid config = true.
Proof.
  unfold loaded_config. destruct (config_file w path) as [t|]; [|done].
  intros (c & _ & H)%res_bind_Ok. by apply check_config_Ok in H as [-> ?].
Qed.

Lemma valid_config_getitem (config : json) (key : string) :
  config_valid config = true → key ∈ required_keys →
  ∃ v, py_getitem config key = Ok v.
Proof.
  unfold config_valid. intros [[Hkeys _]%andb_prop _]%andb_prop Hin.
  apply has_key_getitem. rewrite forallb_forall in Hkeys.
  by apply Hkeys, list_elem_of_In.
Qed.

Lemma read_orders_csv_run (w : world) (path : string) (items : list json)
    (records : list csv_record) (tr : list event) :
  csv_file w path = Some records →
  List.filter (not_in_headers (fieldnames_of records))
    ((JStr <$> ADDRESS_COLUMNS) ++ items) = [] →
  runIO (read_orders_csv w path (JArr items)) tr
  = (tr ++ csv_events path records, Ok (the_row <$> retained_rows records)).
Proof.
  intros Hfile Hheaders. unfold read_orders_csv.
  do 2 io_step. rewrite Hfile, Hheaders. io_step.
  unfold csv_events. rewrite <- app_assoc. reflexivity.
Qed.

Lemma for_each_log_run (errors : list string) (tr : list event) :
  runIO (for_each (fun err => log ERROR err []) errors) tr
  = (tr ++ (error_event <$> errors), Ok tt).
Proof.
  revert tr. induction errors as [|err errors IH]; intros tr; simpl.
  - by rewrite app_nil_r.
  - rewrite IH, <- app_assoc. reflexivity.
Qed.

(** The run through the pre-flight stage: configuration and rows. *)
Ltac io_preflight Hpre :=
  let Hload := fresh "Hload" in
  let Hskus := fresh "Hskus" in
  let Hfile := fresh "Hfile" in
  let Hheaders := fresh "Hheaders" in
  let Hvalid := fresh "Hvalid" in
  destruct Hpre as (Hload & Hskus & Hfile & Hheaders);
  pose proof (loaded_config_valid _ _ _ Hload) as Hvalid;
  destruct (valid_config_getitem _ "tags" Hvalid) as [? ?];
    [by apply (bool_decide_unpack _)|];
  destruct (valid_config_getitem _ "theseus_base_url" Hvalid) as [? ?];
    [by apply (bool_decide_unpack _)|];
  destruct (valid_config_getitem _ "api_key" Hvalid) as [? ?];
    [by apply (bool_decide_unpack _)|];
  unfold run; cbv zeta;
  do 7 io_step;
  (erewrite runIO_bind_Ok; [|rewrite load_config_run, Hload; reflexivity]);
  (erewrite runIO_bind_Ok; [|rewrite runIO_lift, Hskus; reflexivity]);
  do 2 (erewrite runIO_bind_Ok;
        [|rewrite runIO_lift; match goal with H : py_getitem _ _ = Ok _ |- _ =>
            rewrite H end; reflexivity]);
  (erewrite runIO_bind_Ok;
   [|by apply read_orders_csv_run]).

(** C2: when the configuration loads, the CSV file is read and
    [validate_row] reports an error for at least one retained row, the run
    logs every error and raises [SystemExit], with exit status 1, and no
    network call appears in the trace. *)
Theorem run_validation_failure (w : world) (csv_path config_path : string)
    (dry_run : bool) (config : json) (items : list json)
    (records : list csv_record) :
  preflight w csv_path config_path config items records →
  Exists (fun item => row_errors (sku_strings (JArr items)) item ≠ [])
    (enumerate 2 (the_row <$> retained_rows records)) →
  ∃ msg,
    runIO (run w csv_path config_path dry_run) []
    = (preamble w csv_path config_path dry_run
       ++ csv_events csv_path records
       ++ (error_event <$>
             validate_all (sku_strings (JArr items))
               (the_row <$> retained_rows records)),
       Raise (SystemExit msg))
    ∧ exit_status (Raise (SystemExit msg)) = 1
    ∧ Forall (fun ev => is_network_call ev = false)
        (runIO (run w csv_path config_path dry_run) []).1.
Proof.
  intros Hpre Herr.
  assert (validate_all (sku_strings (JArr items))
            (the_row <$> retained_rows records) ≠ []) as Hne.
  { rewrite validate_all_eq. apply Exists_exists in Herr as (item & Hin & H).
    intros Hnil. apply H.
    assert (row_errors (sku_strings (JArr items)) item
            ∈ row_errors (sku_strings (JArr items))
                <$> enumerate 2 (the_row <$> retained_rows records)) as Hmem
      by (by apply list_elem_of_fmap_2).
    apply list_elem_of_In in Hmem.
    destruct (row_errors _ item) as [|m ms] eqn:E; [done|].
    assert (In m (concat (row_errors (sku_strings (JArr items))
                            <$> enumerate 2
                                  (the_row <$> retained_rows records))))
      as Hm by (apply in_concat; exists (m :: ms); split; [done|by left]).
    by rewrite Hnil in Hm. }
  exists ("Validation failed with "
          +:+ pretty (Z.of_nat (length
                (validate_all (sku_strings (JArr items))
                   (the_row <$> retained_rows records))))
          +:+ " error(s). Fix the CSV and retry.").
  match goal with
  | |- ?run = (?tr, ?out) ∧ _ => assert (run = (tr, out)) as Hrun
  end.
  { io_preflight Hpre.
    destruct (validate_all _ _) as [|err errs] eqn:E; [done|].
    erewrite runIO_bind_Ok; [|apply for_each_log_run].
    reflexivity. }
  rewrite Hrun. split; [done|]. split; [done|].
  cbn [fst]. rewrite !Forall_app. split; [|split].
  - by repeat constructor.
  - by repeat constructor.
  - apply Forall_fmap, Forall_true. done.
Qed.

(** * Summaries *)

Lemma written_elem_of (tr : list event) (s : run_summary) :
  s ∈ written tr ↔ ∃ path, EvWriteResults path s ∈ tr.
Proof.
  unfold written. rewrite list_elem_of_omap. split.
  - intros (e & Hin & He). destruct e; try done.
    injection He as ->. by eexists.
  - intros [path Hin]. by exists (EvWriteResults path s).
Qed.

(** Every summary that a run writes is sound for the file it read. *)
Lemma run_written (w : world) (csv_path config_path : string)
    (dry_run : bool) (s : run_summary) :
  s ∈ written (runIO (run w csv_path config_path dry_run) []).1 →
  summary_ok w csv_path s.
Proof.
  intros [path Hin]%written_elem_of.
  destruct (run_writes_ok w csv_path config_path dry_run [])
    as (evs & Htr & Hevs & _).
  rewrite Htr, app_nil_l in Hin. rewrite Forall_forall in Hevs.
  apply (Hevs _ Hin).
Qed.

(** C3: a summary that a run writes has
    [succeeded + failed = total = len(orders)], and [total] is the number
    of rows that [read_orders_csv] retained. *)
Theorem run_summary_counts (w : world) (csv_path config_path : string)
    (dry_run : bool) (s : run_summary) :
  s ∈ written (runIO (run w csv_path config_path dry_run) []).1 →
  succeeded s + failed s = total s
  ∧ total s = Z.of_nat (length (orders s))
  ∧ ∃ records,
      csv_file w csv_path = Some records
      ∧ total s = Z.of_nat (length (retained_rows records)).
Proof.
  intros (records & Hfile & Htotal & Hsum & _ & Hres)%run_written.
  split; [done|]. split; [|by exists records].
  apply Forall2_length in Hres.
  rewrite enumerate_length, length_fmap in Hres. by rewrite Htotal, Hres.
Qed.

(** C10: in a summary that a run writes, every result with status
    [success] has an [order_id], and it is the ["id"] of the response body
    if that is present and not empty, else its ["hc_id"] if that is present
    and not empty, else ["unknown"]. *)
Theorem run_success_order_id (w : world) (csv_path config_path : string)
    (dry_run : bool) (s : run_summary) (result : run_result) :
  s ∈ written (runIO (run w csv_path config_path dry_run) []).1 →
  result ∈ orders s →
  result !! "status" = Some (JStr "success") →
  ∃ members,
    result !! "response" = Some (JObj members)
    ∧ result !! "order_id" = Some (claimed_order_id members).
Proof.
  intros (records & _ & _ & _ & _ & Hres)%run_written Hin Hstatus.
  apply list_elem_of_lookup in Hin as [k Hk].
  destruct (Forall2_lookup_r _ _ _ _ _ Hres Hk) as (item & _ & _ & _ & Hok).
  by apply Hok.
Qed.

(** * Row numbers *)

Lemma dict_rows_first_line (fieldnames : list string)
    (records : list csv_record) (line : nat) (y : located_row) :
  y ∈ dict_rows fieldnames line records → (line < first_line y)%nat.
Proof.
  revert line. induction records as [|rec rest IH]; intros line Hin; simpl in *.
  - by apply elem_of_nil in Hin.
  - destruct (fields rec) as [|f fs].
    + apply IH in Hin. lia.
    + apply elem_of_cons in Hin as [->|Hin]; simpl; [lia|].
      apply IH in Hin. lia.
Qed.

Lemma filter_none {A : Type} (P : A → Prop) `{!∀ x, Decision (P x)}
    (l : list A) :
  Forall (fun x => ¬ P x) l → filter P l = [].
Proof.
  induction 1 as [|x l Hx _ IH]; [done|]. by rewrite filter_cons_False.
Qed.

Lemma dict_rows_numbering (fieldnames : list string)
    (records : list csv_record) (line k : nat) (lr : located_row) :
  filter retained (dict_rows fieldnames line records) !! k = Some lr →
  (line + 1 + k
   + length (filter (dropped_earlier lr) (dict_rows fieldnames line records))
   ≤ first_line lr)%nat.
Proof.
  revert line k.
  induction records as [|rec rest IH]; intros line k H; simpl in *; [done|].
  destruct (fields rec) as [|f fs].
  { apply IH in H. lia. }
  set (x := Located (line + 1) (line + 1 + extra_lines rec)
              (dict_row fieldnames (f :: fs))) in *.
  set (rows := dict_rows fieldnames (line + 1 + extra_lines rec) rest) in *.
  destruct (decide (retained x)) as [Hx|Hx].
  - rewrite filter_cons_True in H by done.
    rewrite (filter_cons_False (dropped_earlier lr)) by (by intros [? _]).
    destruct k as [|k]; simpl in H.
    + injection H as <-. rewrite filter_none; [simpl; lia|].
      apply Forall_forall. intros y Hy [_ Hlt].
      apply dict_rows_first_line in Hy. simpl in Hlt. lia.
    + apply IH in H. fold rows in H. lia.
  - rewrite filter_cons_False in H by done.
    apply IH in H. fold rows in H.
    destruct (decide (dropped_earlier lr x)).
    + rewrite filter_cons_True by done. simpl. lia.
    + rewrite filter_cons_False by done. lia.
Qed.

(** The number of a retained row against its place in the file. *)
Lemma retained_row_line (records : list csv_record) (k : nat)
    (lr : located_row) :
  retained_rows records !! k = Some lr →
  (k + 2 + dropped_before records lr ≤ first_line lr)%nat.
Proof.
  unfold retained_rows, dropped_before, data_rows.
  destruct records as [|header rest]; [done|].
  intros H%dict_rows_numbering. lia.
Qed.

(** C9: the [k]-th retained row (counting from 0) is validated under the
    number [k + 2], and its result carries the row number [k + 2].  The
    row starts at least [k + 2] lines into the file, further down by at
    least one line for every filtered-out row before it; so its number is
    its line number only if no filtered-out row precedes it. *)
Theorem retained_row_number (w : world) (csv_path config_path : string)
    (dry_run : bool) (records : list csv_record) (k : nat)
    (lr : located_row) :
  csv_file w csv_path = Some records →
  retained_rows records !! k = Some lr →
  (∀ names,
     validate_all names (the_row <$> retained_rows records)
     = concat (row_errors names
                 <$> enumerate 2 (the_row <$> retained_rows records))
     ∧ enumerate 2 (the_row <$> retained_rows records) !! k
       = Some (Z.of_nat k + 2, the_row lr))
  ∧ (∀ s,
       s ∈ written (runIO (run w csv_path config_path dry_run) []).1 →
       ∃ result email,
         orders s !! k = Some result
         ∧ result !! "row" = Some (JInt (Z.of_nat k + 2))
         ∧ stripped (the_row lr) "email" = Ok email
         ∧ result !! "email" = Some (JStr email))
  ∧ (k + 2 + dropped_before records lr ≤ first_line lr)%nat
  ∧ (first_line lr = (k + 2)%nat → dropped_before records lr = 0%nat).
Proof.
  intros Hfile Hk.
  assert (enumerate 2 (the_row <$> retained_rows records) !! k
          = Some (Z.of_nat k + 2, the_row lr)) as Hitem.
  { apply enumerate_lookup. split; [lia|].
    by rewrite list_lookup_fmap, Hk. }
  pose proof (retained_row_line records k lr Hk) as Hline.
  split; [|split; [|split; [done|lia]]].
  - intros names. split; [apply validate_all_eq|done].
  - intros s (records' & Hfile' & _ & _ & _ & Hres)%run_written.
    assert (records' = records) as -> by congruence.
    destruct (Forall2_lookup_l _ _ _ _ _ Hres Hitem)
      as (result & Hresult & Hrow & (email & Hemail & Hmail) & _).
    exists result, email. done.
Qed.

(** * Send failures *)

Lemma create_order_run (w : world) (s : string) (api_key : json)
    (p : payload) (tr : list event) :
  has_url_type (request_url s) false = true →
  let req := Request (request_url s) api_key p in
  let tr1 := (tr ++ [EvLog DEBUG "POST %s" [py_str (request_url s)]])
             ++ [EvLog DEBUG "Request body: %s" [DumpsPayload p]] in
  runIO (create_order w (JStr s) api_key p) tr
  = match urlopen w tr1 req with
    | Raises e => (tr1 ++ [EvUrlopen req], Raise e)
    | Response status (NotJson _) => (tr1 ++ [EvUrlopen req], Raise ValueError)
    | Response status EmptyText =>
        (((tr1 ++ [EvUrlopen req])
          ++ [EvLog DEBUG "Response status: %d" [py_int status]])
         ++ [EvLog DEBUG "Response body: %s" [Dumps (JObj [])]],
         Ok (JObj []))
    | Response status (JsonText v) =>
        (((tr1 ++ [EvUrlopen req])
          ++ [EvLog DEBUG "Response status: %d" [py_int status]])
         ++ [EvLog DEBUG "Response body: %s" [Dumps v]],
         Ok v)
    end.
Proof.
  intros Hurl req tr1. unfold create_order. io_step. cbv zeta.
  fold (request_url s). rewrite Hurl. do 3 io_step.
  erewrite runIO_bind_Ok; [|reflexivity].
  fold req. fold tr1.
  destruct (urlopen w tr1 req) as [status [|v|raw]|e]; try reflexivity.
Qed.

Lemma send_row_completes (w : world) (names : list string)
    (tags api_key : json) (s : string) (nrows : Z) (st : tally) (idx : Z)
    (r : row) (email : string) (p : payload) (tr : list event) :
  answers_classified w →
  has_url_type (request_url s) false = true →
  stripped r "email" = Ok email →
  build_order_payload r names tags = Ok p →
  ∃ evs st',
    runIO (send_row w names tags (JStr s) api_key nrows st (idx, r)) tr
    = (tr ++ evs, Ok st')
    ∧ written evs = []
    ∧ network_calls evs = [Request (request_url s) api_key p].
Proof.
  intros Hnet Hurl Hemail Hbuild. unfold send_row.
  erewrite runIO_bind_Ok; [|rewrite runIO_lift, Hemail; reflexivity].
  erewrite runIO_bind_Ok; [|rewrite runIO_lift, Hbuild; reflexivity].
  io_step. rewrite runIO_bind. unfold try_except at 1. cbn [runIO].
  rewrite runIO_bind, create_order_run by done. cbv zeta.
  match goal with
  | |- context [urlopen w ?tr1 ?req] =>
      pose proof (Hnet tr1 req) as Hanswer;
      destruct (urlopen w tr1 req) as [status [|v|raw]|e]
  end.
  - erewrite runIO_bind_Ok; [|rewrite runIO_lift, order_id_of_Ok; reflexivity].
    io_step. cbn [runIO mret io_ret]. io_step. cbn [runIO mret io_ret].
    eexists _, _. split; [rewrite <- !app_assoc; reflexivity|].
    split; reflexivity.
  - destruct v as [| | | | | |members]; try done.
    erewrite runIO_bind_Ok; [|rewrite runIO_lift, order_id_of_Ok; reflexivity].
    io_step. cbn [runIO mret io_ret]. io_step. cbn [runIO mret io_ret].
    eexists _, _. split; [rewrite <- !app_assoc; reflexivity|].
    split; reflexivity.
  - done.
  - destruct e; try done.
    + io_step. cbn [runIO mret io_ret]. io_step. cbn [runIO mret io_ret].
      eexists _, _. split; [rewrite <- !app_assoc; reflexivity|].
      split; reflexivity.
    + io_step. cbn [runIO mret io_ret]. io_step. cbn [runIO mret io_ret].
      eexists _, _. split; [rewrite <- !app_assoc; reflexivity|].
      split; reflexivity.
Qed.

Lemma build_stripped_email (r : row) (names : list string) (tags : json)
    (p : payload) :
  build_order_payload r names tags = Ok p →
  stripped r "email" = Ok (recipient_email (order p)).
Proof.
  unfold build_order_payload. intros H.
  apply res_bind_Ok in H as (lines & _ & H).
  apply res_bind_Ok in H as (email & Hemail & H).
  do 6 (apply res_bind_Ok in H as (? & _ & H)).
  by injection H as <-.
Qed.

Lemma written_app (tr1 tr2 : list event) :
  written (tr1 ++ tr2) = written tr1 ++ written tr2.
Proof. apply omap_app. Qed.

Lemma network_calls_app (tr1 tr2 : list event) :
  network_calls (tr1 ++ tr2) = network_calls tr1 ++ network_calls tr2.
Proof. apply omap_app. Qed.

(** With answers that [run] has a case for, the send loop goes through
    all its rows, whatever the answers are. *)
Lemma send_loop_completes (w : world) (names : list string)
    (tags api_key : json) (s : string) (nrows : Z) (items : list (Z * row)) :
  answers_classified w →
  has_url_type (request_url s) false = true →
  Forall (fun item => buildable names tags item.2 = true) items →
  ∀ st tr, ∃ evs st',
    runIO (for_fold (send_row w names tags (JStr s) api_key nrows) st items) tr
    = (tr ++ evs, Ok st')
    ∧ written evs = []
    ∧ Forall2 (request_of_row names tags) items (network_calls evs).
Proof.
  intros Hnet Hurl. induction 1 as [|[idx r] items Hp _ IH]; intros st tr.
  - exists [], st. simpl. rewrite app_nil_r. repeat split. constructor.
  - unfold buildable in Hp. simpl in Hp.
    destruct (build_order_payload r names tags) as [p|] eqn:Hbuild; [|done].
    clear Hp. rename Hbuild into Hp.
    destruct (send_row_completes w names tags api_key s nrows st idx r _ p tr
                Hnet Hurl (build_stripped_email _ _ _ _ Hp) Hp)
      as (evs1 & st1 & Hrow & Hw1 & Hn1).
    destruct (IH st1 (tr ++ evs1)) as (evs2 & st2 & Hrest & Hw2 & Hn2).
    exists (evs1 ++ evs2), st2. simpl for_fold.
    erewrite runIO_bind_Ok by exact Hrow. rewrite Hrest, app_assoc.
    split; [done|]. rewrite written_app, network_calls_app, Hw1, Hw2, Hn1.
    split; [done|]. by constructor.
Qed.

Lemma runIO_if_raise (b : bool) (e : exn) (tr : list event) :
  runIO (if b then raise e else mret tt) tr
  = (tr, if b then Raise e else Ok tt).
Proof. by destruct b. Qed.

Lemma filter_length_0 {A : Type} (f : A → bool) (l : list A) :
  length (List.filter f l) = 0%nat ↔ existsb f l = false.
Proof.
  induction l as [|x l IH]; simpl; [done|].
  destruct (f x); simpl; [|done]. split; discriminate.
Qed.


(** * The concrete environment *)

Lemma sample_preflight (csv_path : string) (records : list csv_record) :
  csv_file sample_world csv_path = Some records →
  fieldnames_of records = fields header_record →
  preflight sample_world csv_path "config.json" sample_config
    (JStr <$> world_skus) records.
Proof.
  intros Hfile Hheader. split; [by vm_compute|]. split; [by vm_compute|].
  split; [done|]. rewrite Hheader. by vm_compute.
Qed.

Lemma sample_answers : answers_classified sample_world.
Proof. intros tr req. simpl. by destruct (bool_decide _). Qed.

Lemma sample_written :
  written (runIO (run sample_world "orders.csv" "config.json" false) []).1
  = [sample_summary].
Proof. by vm_compute. Qed.

Lemma run_validation_failure_witness :
  ∃ msg,
    runIO (run sample_world "bad.csv" "config.json" true) []
    = (preamble sample_world "bad.csv" "config.json" true
       ++ csv_events "bad.csv" bad_csv
       ++ (error_event <$>
             validate_all (sku_strings (JArr (JStr <$> world_skus)))
               (the_row <$> retained_rows bad_csv)),
       Raise (SystemExit msg))
    ∧ exit_status (Raise (SystemExit msg)) = 1
    ∧ Forall (fun ev => is_network_call ev = false)
        (runIO (run sample_world "bad.csv" "config.json" true) []).1.
Proof.
  apply (run_validation_failure sample_world "bad.csv" "config.json" true
           sample_config (JStr <$> world_skus) bad_csv).
  - by apply sample_preflight.
  - apply (bool_decide_unpack _). by vm_compute.
Defined.

Lemma run_summary_counts_witness :
  succeeded sample_summary + failed sample_summary = total sample_summary
  ∧ total sample_summary = Z.of_nat (length (orders sample_summary))
  ∧ ∃ records,
      csv_file sample_world "orders.csv" = Some records
      ∧ total sample_summary = Z.of_nat (length (retained_rows records)).
Proof.
  apply (run_summary_counts sample_world "orders.csv" "config.json" false).
  rewrite sample_written. by left.
Defined.

Lemma run_success_order_id_witness :
  ∃ members,
    success_result 2 "ada@example.org" (JStr "ord_1") ada_response
      !! "response" = Some (JObj members)
    ∧ success_result 2 "ada@example.org" (JStr "ord_1") ada_response
        !! "order_id" = Some (claimed_order_id members).
Proof.
  apply (run_success_order_id sample_world "orders.csv" "config.json" false
           sample_summary).
  - rewrite sample_written. by left.
  - by left.
  - by vm_compute.
Defined.

Lemma load_config_spec_witness :
  (runIO (load_config sample_world "config.json") []).2 = Ok sample_config
  ∧ ∃ e,
      (runIO (load_config sample_world "short.json") []).2 = Raise e
      ∧ ∀ csv_path dry_run,
          (runIO (run sample_world csv_path "short.json" dry_run) []).2
          = Raise e
          ∧ Forall (fun ev => is_csv_read ev = false)
              (runIO (run sample_world csv_path "short.json" dry_run) []).1.
Proof.
  split.
  - apply (load_config_spec sample_world "config.json" sample_config []);
      by vm_compute.
  - apply (load_config_spec sample_world "short.json" short_config []);
      by vm_compute.
Defined.

Lemma retained_row_number_witness :
  (∀ s,
     s ∈ written (runIO (run sample_world "orders.csv" "config.json" false)
                    []).1 →
     ∃ result email,
       orders s !! 1%nat = Some result
       ∧ result !! "row" = Some (JInt 3)
       ∧ stripped (the_row bob_row) "email" = Ok email
       ∧ result !! "email" = Some (JStr email))
  ∧ first_line bob_row = 4%nat
  ∧ dropped_before good_csv bob_row = 1%nat.
Proof.
  destruct (retained_row_number sample_world "orders.csv" "config.json" false
              good_csv 1 bob_row) as (_ & Hresult & _ & _);
    [by vm_compute|by vm_compute|].
  split; [exact Hresult|]. split; by vm_compute.
Defined.


(** The missing-field messages of a row without city. *)
Example no_city_row_errors :
  validate_row no_city_row 7 sample_skus
  = [ "Row 7: missing required field 'city'" ].
Proof. by vm_compute. Qed.

(** * Rows whose quantities are not padded *)

Lemma cell_stripped (r : row) (key : string) :
  cell r key ≠ "" → stripped r key = Ok (cell r key).
Proof.
  unfold cell, stripped, row_get, row_index.
  destruct (r !! key) as [[s|]|]; simpl; done.
Qed.

Lemma add_content_unpadded (r : row) (names : list string)
    (acc : list content_line) :
  Forall (acceptable_cell r) names →
  Forall (unpadded_cell r) names →
  ∃ lines,
    foldlM (add_content r) acc names = Ok (acc ++ lines)
    ∧ (Exists (positive_cell r) names → lines ≠ []).
Proof.
  intros Hacc Hpad. revert acc.
  induction names as [|name names IH]; intros acc.
  - exists []. rewrite app_nil_r. split; [done|]. by intros ?%Exists_nil.
  - apply Forall_cons in Hacc as [Hname Hacc].
    apply Forall_cons in Hpad as [(v & Hv & Hstrip) Hpad].
    assert (∃ q, add_content r acc name
                 = Ok (if 0 <? q then acc ++ [ContentLine name q] else acc)
                 ∧ (positive_cell r name → 0 < q)) as (q & Hstep & Hq).
    { unfold add_content, row_index. rewrite Hv. simpl.
      unfold acceptable_cell, positive_cell, cell, row_get in *.
      rewrite Hv in *. destruct v as [s|]; simpl in *.
      - rewrite (Hstrip s eq_refl) in *.
        destruct (Str.is_empty s) eqn:E.
        + apply is_empty_true in E as ->. exists 0. split; [done|].
          by intros (q & ? & _).
        + apply is_empty_false in E.
          destruct Hname as [?|(q & Hq & ?)]; [done|]. rewrite Hq.
          exists q. split; [done|]. intros (q' & Hq' & ?). congruence.
      - exists 0. split; [done|]. by intros (q & ? & _). }
    simpl. rewrite Hstep. simpl.
    destruct (IH Hacc Hpad (if 0 <? q then acc ++ [ContentLine name q]
                            else acc)) as (lines & Hlines & Hne).
    destruct (Z.ltb_spec 0 q).
    + exists (ContentLine name q :: lines).
      rewrite Hlines, <- app_assoc. split; [done|]. done.
    + exists lines. split; [done|].
      intros [Hpos|Hpos]%Exists_cons; [apply Hq in Hpos; lia|by apply Hne].
Qed.

(** X6: apart from padded quantities, a validated row can be built: when
    every SKU column is a key of the row and no quantity has white space
    around it, [build_order_payload] returns a payload with at least one
    content line. *)
Lemma build_order_payload_of_validated_row (r : row) (row_num : Z)
    (names : list string) (tags : json) :
  validate_row r row_num names = [] →
  Forall (unpadded_cell r) names →
  ∃ p, build_order_payload r names tags = Ok p ∧ contents p ≠ [].
Proof.
  intros (Hreq & Hacc & Hpos)%validate_row_nil Hpad.
  destruct (add_content_unpadded r names [] Hacc Hpad)
    as (lines & Hlines & Hne).
  unfold required_present in Hreq. rewrite Forall_forall in Hreq.
  assert (∀ col, col ∈ REQUIRED_ADDRESS_COLUMNS →
                 stripped r col = Ok (cell r col)) as Hcol.
  { intros col Hin. by apply cell_stripped, Hreq. }
  unfold build_order_payload. rewrite Hlines. simpl.
  rewrite !Hcol by (apply (bool_decide_unpack _); by vm_compute). simpl.
  eexists. split; [reflexivity|]. simpl. by apply Hne.
Qed.

(** * SKU names after the header check *)

Lemma filter_nil_forallb {A : Type} (f : A → bool) (l : list A) :
  List.filter f l = [] → forallb (fun x => negb (f x)) l = true.
Proof.
  induction l as [|x l IH]; simpl; [done|]. by destruct (f x).
Qed.

(** Once the header has every expected column, the configured SKU list
    holds strings only, all of them columns of the file. *)
Lemma read_orders_csv_skus (headers : list string) (items : list json) :
  List.filter (not_in_headers headers) ((JStr <$> ADDRESS_COLUMNS) ++ items)
  = [] →
  items = JStr <$> sku_strings (JArr items)
  ∧ Forall (fun name => name ∈ headers) (sku_strings (JArr items)).
Proof.
  rewrite List.filter_app. intros [_ H]%app_eq_nil.
  apply filter_nil_forallb in H. simpl.
  induction items as [|c items IH]; simpl in *; [done|].
  apply andb_prop in H as [Hc H]. destruct (IH H) as [IH1 IH2].
  unfold not_in_headers in Hc. rewrite negb_involutive in Hc.
  apply existsb_exists in Hc as (h & Hin & Hh).
  destruct c as [| | | |s| |]; try done. simpl in *.
  apply bool_decide_eq_true in Hh as ->.
  split; [f_equal; exact IH1|]. constructor; [|done].
  by apply list_elem_of_In.
Qed.


(** * More on the row validator *)

(** X1: [validate_row] checks every rule and stops at none: its list is
    the missing-field messages in the order of the required columns, then
    the messages of the SKU columns in their order (nothing for a blank
    cell), then the no-items message when no quantity is positive. *)
Theorem validate_row_reports_all (r : row) (row_num : Z)
    (names : list string) :
  validate_row r row_num names
  = (msg_missing row_num <$> missing_columns r)
    ++ flat_map (sku_errors r row_num) names
    ++ (if existsb (has_quantity r) names then [] else [msg_no_items row_num])
  ∧ (∀ name, cell r name = "" → sku_errors r row_num name = []).
Proof.
  split; [apply validate_row_eq|].
  intros name Hblank. unfold sku_errors. by rewrite Hblank.
Qed.

(** X2: [validate_row] returns the empty list exactly for the rows whose
    required address fields are all non-blank, whose SKU cells are each
    blank or a non-negative integer, and which have a positive quantity. *)
Theorem validate_row_accepts_iff (r : row) (row_num : Z)
    (names : list string) :
  validate_row r row_num names = []
  ↔ required_present r
    ∧ Forall (acceptable_cell r) names
    ∧ Exists (positive_cell r) names.
Proof.
  split.
  - intros H. by apply validate_row_nil in H.
  - intros H. by apply (validate_row_nil r row_num names).
Qed.

Lemma msg_no_items_negative (row_num : Z) (name : string) :
  msg_negative row_num name ≠ msg_no_items row_num.
Proof.
  unfold msg_no_items, msg_negative. intros H.
  do 2 apply String.app_inj in H. rewrite !append_cons in H. congruence.
Qed.

Lemma msg_no_items_non_integer (row_num : Z) (raw name : string) :
  msg_non_integer row_num raw name ≠ msg_no_items row_num.
Proof.
  unfold msg_no_items, msg_non_integer. intros H.
  do 2 apply String.app_inj in H. rewrite !append_cons in H. congruence.
Qed.

(** X3: the no-items message is in the error list once when no SKU column
    of the row holds a positive quantity, and not at all when one does,
    whatever else is wrong with the row. *)
Theorem validate_row_no_items (r : row) (row_num : Z) (names : list string) :
  occurrences (msg_no_items row_num) (validate_row r row_num names)
  = if existsb (has_quantity r) names then 0%nat else 1%nat.
Proof.
  rewrite validate_row_eq, !occurrences_app.
  rewrite (occurrences_none _ (msg_missing row_num <$> _)).
  2:{ apply Forall_fmap, Forall_true. intros col. simpl.
      intros H. by apply (msg_missing_no_items row_num col). }
  rewrite (occurrences_none _ (flat_map _ _)).
  2:{ induction names as [|name names IH]; simpl; [done|].
      apply Forall_app. split; [|done].
      unfold sku_errors. destruct (Str.is_empty _); [done|].
      destruct (PyInt.of_string _) as [qty|].
      - destruct (qty <? 0); repeat constructor. apply msg_no_items_negative.
      - repeat constructor. apply msg_no_items_non_integer. }
  destruct (existsb _ _); [done|].
  unfold occurrences. by rewrite filter_cons_True.
Qed.

(** * More on the payload builder *)

Lemma add_content_lines (r : row) (names : list string)
    (acc lines : list content_line) :
  foldlM (add_content r) acc names = Ok lines →
  lines = acc ++ omap (line_of r) names.
Proof.
  revert acc. induction names as [|name names IH]; intros acc H; simpl in *.
  - injection H as <-. by rewrite app_nil_r.
  - apply res_bind_Ok in H as (acc' & Hstep & H).
    apply IH in H as ->.
    unfold add_content in Hstep. unfold line_of, quantity_of.
    destruct (row_index r name ≫= int_or_zero) as [qty|] eqn:E.
    + assert (acc' = if 0 <? qty then acc ++ [ContentLine name qty] else acc)
        as ->.
      { apply res_bind_Ok in Hstep as (v & Hv & Hstep).
        apply res_bind_Ok in Hstep as (q & Hq & Hstep).
        rewrite Hv in E. simpl in E. rewrite Hq in E.
        injection E as <-. by injection Hstep as <-. }
      destruct (0 <? qty); [|done]. by rewrite <- app_assoc.
    + exfalso. apply res_bind_Ok in Hstep as (v & Hv & Hstep).
      apply res_bind_Ok in Hstep as (q & Hq & _).
      rewrite Hv in E. simpl in E. by rewrite Hq in E.
Qed.

(** X4: the contents of a payload are the SKU columns with a positive
    quantity, in the order of [sku_names], each with the quantity that
    [int()] reads from its cell; columns with quantity zero or a blank cell
    are left out. *)
Theorem build_order_payload_contents (r : row) (names : list string)
    (tags : json) (p : payload) :
  build_order_payload r names tags = Ok p →
  contents p = omap (line_of r) names.
Proof.
  unfold build_order_payload. intros H.
  apply res_bind_Ok in H as (lines & Hlines & H).
  do 7 (apply res_bind_Ok in H as (? & _ & H)).
  injection H as <-. simpl. by apply add_content_lines in Hlines.
Qed.

Lemma build_order_payload_contents_witness :
  contents sample_payload = omap (line_of sample_row) sample_skus.
Proof.
  apply (build_order_payload_contents sample_row sample_skus sample_tags).
  by vm_compute.
Defined.

Lemma stripped_cell (r : row) (key value : string) :
  stripped r key = Ok value → value = cell r key.
Proof.
  unfold stripped, cell, row_index, row_get.
  destruct (r !! key) as [[s|]|]; simpl; [|done..]. by intros [= <-].
Qed.

(** X5: a payload carries the trimmed e-mail address as recipient, the
    tags as given, and the trimmed value of each of the six address
    columns that are always sent; its address has no key beyond the eight
    address columns other than the e-mail address. *)
Theorem build_order_payload_address (r : row) (names : list string)
    (given : json) (p : payload) :
  build_order_payload r names given = Ok p →
  recipient_email (order p) = cell r "email"
  ∧ tags (order p) = given
  ∧ Forall (fun col => address p !! col = Some (cell r col))
      mandatory_address_keys
  ∧ ∀ key, is_Some (address p !! key) →
           key ∈ ADDRESS_COLUMNS ∧ key ≠ "email".
Proof.
  unfold build_order_payload. intros H.
  apply res_bind_Ok in H as (lines & _ & H).
  apply res_bind_Ok in H as (email & ->%stripped_cell & H).
  apply res_bind_Ok in H as (a & ->%stripped_cell & H).
  apply res_bind_Ok in H as (c & ->%stripped_cell & H).
  apply res_bind_Ok in H as (e & ->%stripped_cell & H).
  apply res_bind_Ok in H as (f & ->%stripped_cell & H).
  apply res_bind_Ok in H as (g & ->%stripped_cell & H).
  apply res_bind_Ok in H as (h & ->%stripped_cell & H).
  injection H as <-. simpl. split; [done|]. split; [done|].
  unfold mandatory_address_keys. rewrite !Forall_cons, Forall_nil.
  generalize (cell r "first_name") (cell r "last_name") (cell r "line_1")
    (cell r "line_2") (cell r "city") (cell r "state")
    (cell r "postal_code") (cell r "country").
  intros a b c d e f g h. split.
  - rewrite !drop_blank_lookup. by vm_compute.
  - intros key [v Hv]. rewrite !drop_blank_lookup in Hv.
    assert (key ∈ [ "first_name"; "last_name"; "line_1"; "line_2"; "city";
                    "state"; "postal_code"; "country" ]) as Hkey.
    { destruct (decide (key ∈ [ "first_name"; "last_name"; "line_1";
                                "line_2"; "city"; "state"; "postal_code";
                                "country" ])) as [|Hout]; [done|].
      exfalso. rewrite !not_elem_of_cons in Hout.
      destruct Hout as (? & ? & ? & ? & ? & ? & ? & ? & _).
      rewrite !decide_False in Hv by done.
      rewrite !lookup_insert_ne, lookup_empty in Hv by done. done. }
    split.
    + revert Hkey. rewrite !elem_of_cons. unfold ADDRESS_COLUMNS.
      rewrite !elem_of_cons. tauto.
    + intros ->. revert Hkey. rewrite !elem_of_cons, elem_of_nil.
      intros H. repeat (destruct H as [H|H]; [done|]). done.
Qed.

Lemma build_order_payload_address_witness :
  recipient_email (order sample_payload) = cell sample_row "email"
  ∧ tags (order sample_payload) = sample_tags
  ∧ Forall (fun col => address sample_payload !! col
                       = Some (cell sample_row col))
      mandatory_address_keys
  ∧ ∀ key, is_Some (address sample_payload !! key) →
           key ∈ ADDRESS_COLUMNS ∧ key ≠ "email".
Proof.
  apply (build_order_payload_address sample_row sample_skus sample_tags).
  by vm_compute.
Defined.

Lemma build_order_payload_of_validated_row_witness :
  ∃ p, build_order_payload sample_row sample_skus sample_tags = Ok p
       ∧ contents p ≠ [].
Proof.
  apply (build_order_payload_of_validated_row sample_row 2).
  - by vm_compute.
  - apply Forall_cons_2; [|apply Forall_cons_2; [|apply Forall_nil_2]].
    + exists (Some "3"). split; [by vm_compute|].
      intros s [= <-]. by vm_compute.
    + exists (Some "0"). split; [by vm_compute|].
      intros s [= <-]. by vm_compute.
Defined.

(** * More on the config loader *)

Lemma check_config_missing (members : list (string * json)) (k : string)
    (ks : list string) :
  List.filter (fun k => negb (has_key (JObj members) k)) required_keys
  = k :: ks →
  check_config (JObj members)
  = Raise (SystemExit ("Config missing keys: " +:+ Str.join ", " (k :: ks))).
Proof.
  intros H. unfold check_config. rewrite missing_keys_object, H. reflexivity.
Qed.

(** X7: for a configuration that is a JSON object, the checks come in a
    fixed order and each ends the run with its own message: the missing
    required keys, listed in the order [theseus_base_url, api_key, tags,
    skus]; then the number of SKUs when it is not 12; then the placeholder
    API key.  Nothing but the log set-up and the opening of the
    configuration file has happened by then. *)
Theorem run_config_messages (w : world) (csv_path config_path : string)
    (dry_run : bool) (members : list (string * json)) :
  config_file w config_path = Some (JsonText (JObj members)) →
  let config := JObj members in
  let missing :=
    List.filter (fun k => negb (has_key config k)) required_keys in
  let ends_with msg :=
    runIO (run w csv_path config_path dry_run) []
    = (preamble w csv_path config_path dry_run, Raise (SystemExit msg)) in
  (missing ≠ [] →
   ends_with ("Config missing keys: " +:+ Str.join ", " missing))
  ∧ (∀ n, missing = [] → sku_count config = Some n → n ≠ 12 →
          ends_with ("Config must list exactly 12 SKUs, got " +:+ pretty n))
  ∧ (missing = [] → sku_count config = Some 12 →
     has_placeholder_key config = true →
     ends_with "Set your real API key in config.json before running.").
Proof.
  intros Hfile config missing ends_with. subst ends_with. cbv beta.
  assert (loaded_config w config_path = check_config config) as Hload.
  { unfold loaded_config. by rewrite Hfile. }
  split; [|split].
  - intros Hmiss. apply run_config_failure. rewrite Hload.
    destruct missing as [|k ks] eqn:E; [done|].
    by apply check_config_missing.
  - intros n Hmiss Hcount Hn. apply run_config_failure. rewrite Hload.
    subst missing config. unfold check_config, sku_count in *.
    rewrite missing_keys_object, Hmiss. cbn [mbind res_bind].
    destruct (py_getitem (JObj members) "skus") as [skus|];
      cbn [mbind res_bind] in *; [|done].
    destruct (py_len skus) as [n'|]; cbn [mbind res_bind] in *; [|done].
    injection Hcount as ->.
    destruct (Z.eqb_spec n 12); [done|]. reflexivity.
  - intros Hmiss Hcount Hkey. apply run_config_failure. rewrite Hload.
    subst missing config.
    unfold check_config, sku_count, has_placeholder_key in *.
    rewrite missing_keys_object, Hmiss. cbn [mbind res_bind].
    destruct (py_getitem (JObj members) "skus") as [skus|];
      cbn [mbind res_bind] in *; [|done].
    destruct (py_len skus) as [n'|]; cbn [mbind res_bind] in *; [|done].
    injection Hcount as ->. cbn [Z.eqb Pos.eqb negb].
    destruct (py_getitem (JObj members) "api_key") as [key|];
      cbn [mbind res_bind]; [|done].
    by rewrite Hkey.
Qed.

Lemma run_config_messages_witness :
  runIO (run sample_world "orders.csv" "short.json" false) []
  = (preamble sample_world "orders.csv" "short.json" false,
     Raise (SystemExit "Config must list exactly 12 SKUs, got 11")).
Proof.
  destruct (run_config_messages sample_world "orders.csv" "short.json" false
              [ ("theseus_base_url", JStr "https://mail.example.org/");
                ("api_key", JStr "secret");
                ("tags", sample_tags);
                ("skus", JArr (JStr <$> take 11 world_skus)) ])
    as (_ & Hcount & _); [by vm_compute|].
  apply (Hcount 11); by vm_compute.
Defined.

(** X8: a configuration that [load_config] returns is a JSON object in
    which the four required keys can be looked up, whose SKU list has 12
    entries and whose API key is not the placeholder; so the look-ups of
    [run] that follow cannot raise [KeyError]. *)
Theorem loaded_config_lookups (w : world) (path : string) (config : json) :
  loaded_config w path = Ok config →
  (∃ members, config = JObj members)
  ∧ (∀ key, key ∈ required_keys → ∃ v, py_getitem config key = Ok v)
  ∧ (∃ skus, py_getitem config "skus" = Ok skus ∧ py_len skus = Ok 12)
  ∧ py_getitem config "api_key" ≠ Ok (JStr placeholder_key).
Proof.
  intros Hvalid%loaded_config_valid.
  split; [|split; [|split]].
  - unfold config_valid in Hvalid. destruct config; try done. by eexists.
  - intros key Hkey. by apply valid_config_getitem.
  - unfold config_valid, sku_count in Hvalid.
    apply andb_prop in Hvalid as [[_ Hcount]%andb_prop _].
    apply bool_decide_eq_true in Hcount.
    destruct (py_getitem config "skus") as [skus|]; simpl in Hcount; [|done].
    destruct (py_len skus) as [n|] eqn:Hlen; simpl in Hcount; [|done].
    injection Hcount as ->. by exists skus.
  - unfold config_valid, has_placeholder_key in Hvalid.
    apply andb_prop in Hvalid as [_ Hkey]. intros H. rewrite H in Hkey.
    unfold eq_str in Hkey. by rewrite bool_decide_true in Hkey.
Qed.

Lemma loaded_config_lookups_witness :
  (∃ members, sample_config = JObj members)
  ∧ (∀ key, key ∈ required_keys → ∃ v, py_getitem sample_config key = Ok v)
  ∧ (∃ skus, py_getitem sample_config "skus" = Ok skus
             ∧ py_len skus = Ok 12)
  ∧ py_getitem sample_config "api_key" ≠ Ok (JStr placeholder_key).
Proof.
  apply (loaded_config_lookups sample_world "config.json"). by vm_compute.
Defined.

(** * More on the CSV reader *)

Lemma foldl_insert_none_lookup (keys : list string) (d : row) (key : string) :
  is_Some (foldl (fun d k => <[k := None]> d) d keys !! key)
  ↔ key ∈ keys ∨ is_Some (d !! key).
Proof.
  revert d. induction keys as [|k keys IH]; intros d; simpl.
  - rewrite elem_of_nil. tauto.
  - rewrite IH, elem_of_cons. destruct (decide (k = key)) as [->|Hne].
    + rewrite lookup_insert_eq. split; [intros _; by left; left|].
      intros _. right. by eexists.
    + rewrite lookup_insert_ne by done. split; [tauto|].
      intros [[?|?]|?]; [congruence|tauto..].
Qed.

Lemma zip_or_drop {A : Type} (names : list string) (l : list A)
    (key : string) :
  key ∈ names → key ∈ (zip names l).*1 ∨ key ∈ drop (length l) names.
Proof.
  revert l. induction names as [|k names IH]; intros l Hin.
  - by apply elem_of_nil in Hin.
  - destruct l as [|x l]; [by right|]. simpl.
    apply elem_of_cons in Hin as [->|Hin]; [left; by left|].
    destruct (IH l Hin); [left; by right|by right].
Qed.

(** Every field name is a key of the row made of a record, however short
    the record is. *)
Lemma dict_row_keys (fieldnames record : list string) (key : string) :
  key ∈ fieldnames → is_Some (dict_row fieldnames record !! key).
Proof.
  intros Hin. unfold dict_row. apply foldl_insert_none_lookup.
  destruct (zip_or_drop fieldnames (Some <$> record) key Hin) as [Hzip|Hdrop].
  - right.
    destruct (list_to_map (reverse (zip fieldnames (Some <$> record)))
              !! key) as [v|] eqn:E; [by eexists|].
    apply not_elem_of_list_to_map in E. exfalso. apply E.
    by rewrite fmap_reverse, elem_of_reverse.
  - left. by rewrite length_fmap in Hdrop.
Qed.

Lemma dict_rows_row (fieldnames : list string) (records : list csv_record)
    (line : nat) (lr : located_row) :
  lr ∈ dict_rows fieldnames line records →
  ∃ record, the_row lr = dict_row fieldnames record.
Proof.
  revert line. induction records as [|rec rest IH]; intros line Hin; simpl in *.
  - by apply elem_of_nil in Hin.
  - destruct (fields rec) as [|f fs]; [by eapply IH|].
    apply elem_of_cons in Hin as [->|Hin]; [by eexists|by eapply IH].
Qed.

Lemma header_check_strings (headers names : list string) :
  List.filter (not_in_headers headers) (JStr <$> names)
  = JStr <$> filter (fun c => c ∉ headers) names.
Proof.
  induction names as [|c names IH]; [done|].
  rewrite fmap_cons. cbn [List.filter]. rewrite IH.
  unfold not_in_headers.
  destruct (decide (c ∈ headers)) as [Hin|Hout].
  - rewrite filter_cons_False by tauto.
    assert (existsb (fun h => eq_str h (JStr c)) headers = true) as ->; [|done].
    apply existsb_exists. exists c.
    split; [by apply list_elem_of_In|by apply bool_decide_eq_true].
  - rewrite filter_cons_True by done.
    assert (existsb (fun h => eq_str h (JStr c)) headers = false) as ->;
      [|done].
    apply not_true_is_false.
    intros (h & Hh & ->%bool_decide_eq_true)%existsb_exists.
    by apply Hout, list_elem_of_In.
Qed.

Lemma join_values_strings (sep : string) (names : list string) :
  join_values sep (JStr <$> names) = Ok (Str.join sep names).
Proof.
  induction names as [|c names IH]; [done|].
  rewrite fmap_cons. cbn [join_values]. rewrite IH. by destruct names.
Qed.

(** What it takes for [read_orders_csv] to return. *)
Lemma read_orders_csv_Ok (w : world) (path : string) (sku_names : json)
    (tr tr' : list event) (rows : list row) :
  runIO (read_orders_csv w path sku_names) tr = (tr', Ok rows) →
  ∃ items records,
    sku_names = JArr items
    ∧ csv_file w path = Some records
    ∧ List.filter (not_in_headers (fieldnames_of records))
        ((JStr <$> ADDRESS_COLUMNS) ++ items) = []
    ∧ rows = the_row <$> retained_rows records
    ∧ tr' = tr ++ csv_events path records.
Proof.
  unfold read_orders_csv. intros H.
  destruct sku_names as [| | | | |items|]; try done.
  exists items. do 2 (erewrite runIO_bind_Ok in H; [|reflexivity]).
  destruct (csv_file w path) as [records|]; [|done].
  exists records.
  destruct (List.filter _ _) as [|c cs] eqn:Hfilter.
  - erewrite runIO_bind_Ok in H; [|reflexivity].
    injection H as <- <-. unfold csv_events. by rewrite <- app_assoc.
  - rewrite runIO_bind in H.
    destruct (runIO (lift (join_values ", " (c :: cs))) _) as [? [?|?]];
      done.
Qed.

(** X9: when [read_orders_csv] returns, the configured SKU names are all
    strings, and every row it returns has a non-blank e-mail address and
    has every address column and every SKU column as a key, so that
    [row[sku]] cannot raise [KeyError] later. *)
Theorem read_orders_csv_rows (w : world) (path : string) (sku_names : json)
    (tr tr' : list event) (rows : list row) :
  runIO (read_orders_csv w path sku_names) tr = (tr', Ok rows) →
  ∃ names,
    sku_names = JArr (JStr <$> names)
    ∧ Forall (fun r =>
                cell r "email" ≠ ""
                ∧ ∀ col, col ∈ ADDRESS_COLUMNS ++ names → is_Some (r !! col))
        rows.
Proof.
  intros (items & records & -> & Hfile & Hheaders & -> & _)%read_orders_csv_Ok.
  destruct (read_orders_csv_skus _ _ Hheaders) as [Hitems _].
  exists (sku_strings (JArr items)). split; [by f_equal|].
  rewrite Hitems, <- fmap_app, header_check_strings in Hheaders.
  apply fmap_nil_inv in Hheaders.
  apply Forall_fmap, Forall_forall. intros lr Hlr.
  apply list_elem_of_filter in Hlr as [Hretained Hlr]. split; [done|].
  intros col Hcol. simpl.
  assert (col ∈ fieldnames_of records) as Hheader.
  { destruct (decide (col ∈ fieldnames_of records)) as [|Hout]; [done|].
    exfalso. eapply (filter_nil_not_elem_of _ _ col Hheaders); done. }
  unfold data_rows, fieldnames_of in *.
  destruct records as [|header rest]; [by apply elem_of_nil in Hlr|].
  apply dict_rows_row in Hlr as [record ->]. by apply dict_row_keys.
Qed.

Lemma read_orders_csv_rows_witness :
  ∃ names,
    JArr (JStr <$> world_skus) = JArr (JStr <$> names)
    ∧ Forall (fun r =>
                cell r "email" ≠ ""
                ∧ ∀ col, col ∈ ADDRESS_COLUMNS ++ names → is_Some (r !! col))
        (the_row <$> retained_rows good_csv).
Proof.
  apply (read_orders_csv_rows sample_world "orders.csv"
           (JArr (JStr <$> world_skus)) []
           ([] ++ csv_events "orders.csv" good_csv)).
  by vm_compute.
Defined.

(** X10: when the header of the file lacks expected columns,
    [read_orders_csv] opens the file and raises [SystemExit] with the
    missing columns, address columns first and each group in its own
    order; no row is read. *)
Theorem read_orders_csv_missing_columns (w : world) (path : string)
    (names : list string) (records : list csv_record) (tr : list event) :
  csv_file w path = Some records →
  filter (fun c => c ∉ fieldnames_of records) (ADDRESS_COLUMNS ++ names)
  ≠ [] →
  runIO (read_orders_csv w path (JArr (JStr <$> names))) tr
  = (tr ++ [EvOpenCsv path],
     Raise (SystemExit
              ("CSV is missing columns: "
               +:+ Str.join ", "
                     (filter (fun c => c ∉ fieldnames_of records)
                        (ADDRESS_COLUMNS ++ names))))).
Proof.
  intros Hfile Hmissing. unfold read_orders_csv. do 2 io_step.
  rewrite Hfile, <- fmap_app, header_check_strings.
  destruct (filter _ (ADDRESS_COLUMNS ++ names)) as [|c cs]; [done|].
  rewrite fmap_cons.
  erewrite runIO_bind_Ok;
    [|rewrite runIO_lift, <- fmap_cons, join_values_strings; reflexivity].
  reflexivity.
Qed.

Lemma read_orders_csv_missing_columns_witness :
  runIO (read_orders_csv sample_world "orders.csv"
           (JArr (JStr <$> [ "SKU-A"; "SKU-Y"; "SKU-Z" ]))) []
  = ([ EvOpenCsv "orders.csv" ],
     Raise (SystemExit "CSV is missing columns: SKU-Y, SKU-Z")).
Proof.
  rewrite (read_orders_csv_missing_columns sample_world "orders.csv"
             [ "SKU-A"; "SKU-Y"; "SKU-Z" ] good_csv []); by vm_compute.
Defined.


(** * More on the order client *)

Lemma rev_app_append (s t acc : string) :
  String.rev_app (s +:+ t) acc = String.rev_app t (String.rev_app s acc).
Proof.
  revert acc. induction s as [|c s IH]; intros acc; [done|].
  rewrite append_cons. simpl. apply IH.
Qed.

(** X13: a slash at the end of the base URL makes no difference to the
    address that orders are posted to. *)
Theorem request_url_trailing_slash (base : string) :
  request_url (base +:+ "/") = request_url base.
Proof.
  unfold request_url, Str.rstrip_slash, Str.rstrip_by, String.rev.
  rewrite rev_app_append. reflexivity.
Qed.



(** X12: [create_order] raises before any network call, and before any
    log record, when the base URL is not a string ([AttributeError]) or
    has no URL type in front of a colon ([ValueError]). *)
Theorem create_order_rejects (w : world) (base_url api_key : json)
    (p : payload) (tr : list event) :
  ((∀ base, base_url ≠ JStr base) →
   runIO (create_order w base_url api_key p) tr = (tr, Raise AttributeError))
  ∧ (∀ base, base_url = JStr base →
             has_url_type (request_url base) false = false →
             runIO (create_order w base_url api_key p) tr
             = (tr, Raise ValueError)).
Proof.
  split.
  - intros Hbase. unfold create_order.
    destruct base_url; try reflexivity. by destruct (Hbase s).
  - intros base -> Hurl. unfold create_order. io_step. cbv zeta.
    fold (request_url base). rewrite Hurl. reflexivity.
Qed.

Lemma create_order_rejects_witness :
  runIO (create_order sample_world (JStr "mail.example.org") (JStr "secret")
           sample_payload) []
  = ([], Raise ValueError).
Proof.
  apply (create_order_rejects sample_world (JStr "mail.example.org")
           (JStr "secret") sample_payload []) with (base := "mail.example.org");
    by vm_compute.
Defined.

(** * More on the send loop *)

(** The run of [send_row] up to the answer of the network. *)
Ltac send_row_start Hurl Hemail Hbuild :=
  unfold send_row;
  (erewrite runIO_bind_Ok; [|rewrite runIO_lift, Hemail; reflexivity]);
  (erewrite runIO_bind_Ok; [|rewrite runIO_lift, Hbuild; reflexivity]);
  io_step; rewrite runIO_bind; unfold try_except at 1; cbn [runIO];
  rewrite runIO_bind, create_order_run by done; cbv zeta.

(** The rest of the run of [send_row] once the answer is known. *)
Ltac send_row_finish :=
  repeat (io_step; cbn [runIO mret io_ret]);
  eexists; split; [rewrite <- !app_assoc; reflexivity|].

Section send_row_outcomes.
Variables (w : world) (names : list string) (tags api_key : json).
Variables (base : string) (nrows : Z) (st : tally) (idx : Z) (r : row).
Variables (email : string) (p : payload).
Hypothesis Hurl : has_url_type (request_url base) false = true.
Hypothesis Hemail : stripped r "email" = Ok email.
Hypothesis Hbuild : build_order_payload r names tags = Ok p.



Lemma send_row_escapes (e : exn) (tr : list event) :
  (∀ tr', uncaught (urlopen w tr' (Request (request_url base) api_key p))
          = Some e) →
  ∃ evs,
    runIO (send_row w names tags (JStr base) api_key nrows st (idx, r)) tr
    = (tr ++ evs, Raise e)
    ∧ sleeps evs = 0%nat
    ∧ written evs = []
    ∧ length (network_calls evs) = 1%nat.
Proof.
  intros Hnet. send_row_start Hurl Hemail Hbuild.
  match goal with
  | |- context [urlopen w ?tr1 ?req] =>
      specialize (Hnet tr1);
      destruct (urlopen w tr1 req) as [status [|v|raw]|e']
  end.
  - done.
  - destruct v; try done; injection Hnet as <-;
      (eexists; split; [rewrite <- !app_assoc; reflexivity|done]).
  - injection Hnet as <-.
    eexists; split; [rewrite <- !app_assoc; reflexivity|done].
  - destruct e'; try done; injection Hnet as <-;
      (eexists; split; [rewrite <- !app_assoc; reflexivity|done]).
Qed.

End send_row_outcomes.



Lemma bob_payload_built :
  build_order_payload (the_row bob_row) world_skus sample_tags
  = Ok bob_payload.
Proof. by vm_compute. Qed.







(** * Dry runs *)

Lemma harmless_trace (evs : list event) :
  Forall harmless evs →
  network_calls evs = [] ∧ written evs = [] ∧ sleeps evs = 0%nat.
Proof.
  unfold sleeps. induction 1 as [|e evs He _ (IH1 & IH2 & IH3)]; [done|].
  destruct e; try done; simpl; by rewrite ?IH1, ?IH2, ?IH3.
Qed.

(** X18: a dry run, whatever the environment and however it ends, makes no
    network call, never pauses and writes no results file. *)
Theorem run_dry_run_harmless (w : world) (csv_path config_path : string) :
  network_calls (runIO (run w csv_path config_path true) []).1 = []
  ∧ written (runIO (run w csv_path config_path true) []).1 = []
  ∧ sleeps (runIO (run w csv_path config_path true) []).1 = 0%nat.
Proof.
  assert (io_spec harmless (fun _ => True)
            (run w csv_path config_path true)) as Hrun.
  { unfold run, setup_logging, load_config, read_orders_csv. cbv zeta.
    do 12 (eapply (io_spec_bind _ (fun _ => True)); [io_quiet|intros ? _]).
    destruct (validate_all _ _); [|io_quiet].
    eapply (io_spec_bind _ (fun _ => True)); [io_quiet|intros ? _].
    cbv iota.
    eapply (io_spec_bind _ (fun _ => True)); [|intros ? _; io_quiet].
    apply io_spec_for_each. intros item. unfold dry_run_row. io_quiet. }
  destruct (Hrun []) as (evs & Htr & Hevs & _).
  rewrite Htr, app_nil_l. by apply harmless_trace.
Qed.

Lemma dry_run_row_run (names : list string) (tags : json) (item : Z * row)
    (tr : list event) :
  buildable names tags item.2 = true →
  runIO (dry_run_row names tags item) tr
  = (tr ++ dry_run_events names tags item, Ok tt).
Proof.
  destruct item as [idx r]. unfold buildable, dry_run_events, dry_run_row.
  simpl. destruct (build_order_payload r names tags) as [p|] eqn:Hbuild;
    [intros _|done].
  pose proof (build_stripped_email _ _ _ _ Hbuild) as Hemail.
  pose proof (stripped_cell _ _ _ Hemail) as Hcell.
  assert (contents p = omap (line_of r) names) as Hlines.
  { unfold build_order_payload in Hbuild.
    apply res_bind_Ok in Hbuild as (lines & Hlines & H).
    do 7 (apply res_bind_Ok in H as (? & _ & H)).
    injection H as <-. simpl. by apply add_content_lines in Hlines. }
  rewrite Hemail, Hcell, Hlines, <- app_assoc. reflexivity.
Qed.

Lemma for_each_dry_run (names : list string) (tags : json)
    (items : list (Z * row)) (tr : list event) :
  Forall (fun item => buildable names tags item.2 = true) items →
  runIO (for_each (dry_run_row names tags) items) tr
  = (tr ++ flat_map (dry_run_events names tags) items, Ok tt).
Proof.
  intros Hitems. revert tr.
  induction Hitems as [|item items Hitem _ IH]; intros tr;
    cbn [for_each flat_map].
  - by rewrite app_nil_r.
  - erewrite runIO_bind_Ok; [|by apply dry_run_row_run].
    rewrite IH, <- app_assoc. reflexivity.
Qed.

(** X19: a dry run over rows that pass validation and can be built ends
    normally, with exit status 0; after the pre-flight records, its trace
    holds for every retained row, in order, one INFO record with the row
    number, the trimmed e-mail address and the number of SKU columns with a
    positive quantity, and one DEBUG record with the payload. *)
Theorem run_dry_run_completes (w : world) (csv_path config_path : string)
    (config tags : json) (items : list json) (records : list csv_record) :
  preflight w csv_path config_path config items records →
  validate_all (sku_strings (JArr items)) (the_row <$> retained_rows records)
  = [] →
  py_getitem config "tags" = Ok tags →
  Forall (fun r => buildable (sku_strings (JArr items)) tags r = true)
    (the_row <$> retained_rows records) →
  runIO (run w csv_path config_path true) []
  = (preamble w csv_path config_path true
     ++ csv_events csv_path records
     ++ [ EvLog INFO "All %d rows passed validation."
            [py_int (Z.of_nat (length (the_row <$> retained_rows records)))] ]
     ++ flat_map (dry_run_events (sku_strings (JArr items)) tags)
          (enumerate 2 (the_row <$> retained_rows records))
     ++ [ EvLog INFO "Dry run complete. No orders were created." [] ],
     Ok tt)
  ∧ exit_status (Ok tt) = 0.
Proof.
  intros Hpre Hvalid Htags Hbuild. split; [|done].
  assert (Forall (fun item : Z * row =>
                    buildable (sku_strings (JArr items)) tags item.2 = true)
            (enumerate 2 (the_row <$> retained_rows records))) as Hitems.
  { apply Forall_forall. intros [idx r] Hr%enumerate_elem_of.
    rewrite Forall_forall in Hbuild. by apply Hbuild. }
  io_preflight Hpre.
  repeat match goal with
  | H : py_getitem config "tags" = Ok ?x |- _ =>
      rewrite Htags in H; injection H as <-
  end.
  rewrite Hvalid. io_step. cbv iota.
  erewrite runIO_bind_Ok; [|by apply for_each_dry_run].
  cbn [runIO log emit]. rewrite <- !app_assoc. reflexivity.
Qed.

Lemma run_dry_run_completes_witness :
  runIO (run sample_world "orders.csv" "config.json" true) []
  = (preamble sample_world "orders.csv" "config.json" true
     ++ csv_events "orders.csv" good_csv
     ++ [ EvLog INFO "All %d rows passed validation."
            [py_int (Z.of_nat (length (the_row <$> retained_rows good_csv)))] ]
     ++ flat_map (dry_run_events (sku_strings (JArr (JStr <$> world_skus)))
                    sample_tags)
          (enumerate 2 (the_row <$> retained_rows good_csv))
     ++ [ EvLog INFO "Dry run complete. No orders were created." [] ],
     Ok tt)
  ∧ exit_status (Ok tt) = 0.
Proof.
  apply (run_dry_run_completes sample_world "orders.csv" "config.json"
           sample_config sample_tags (JStr <$> world_skus) good_csv).
  - by apply sample_preflight.
  - by vm_compute.
  - by vm_compute.
  - apply (bool_decide_unpack _). by vm_compute.
Defined.

(** * Pauses *)

Lemma send_row_paced (w : world) (names : list string)
    (tags api_key : json) (s : string) (nrows : Z) (st : tally) (idx : Z)
    (r : row) (email : string) (p : payload) (tr : list event) :
  answers_classified w →
  has_url_type (request_url s) false = true →
  stripped r "email" = Ok email →
  build_order_payload r names tags = Ok p →
  ∃ evs st',
    runIO (send_row w names tags (JStr s) api_key nrows st (idx, r)) tr
    = (tr ++ evs, Ok st')
    ∧ sleeps evs = 1%nat
    ∧ length (network_calls evs) = 1%nat
    ∧ last evs = Some EvSleep.
Proof.
  intros Hnet Hurl Hemail Hbuild. send_row_start Hurl Hemail Hbuild.
  match goal with
  | |- context [urlopen w ?tr1 ?req] =>
      pose proof (Hnet tr1 req) as Hanswer;
      destruct (urlopen w tr1 req) as [status [|v|raw]|e]
  end.
  - erewrite runIO_bind_Ok; [|rewrite runIO_lift, order_id_of_Ok; reflexivity].
    eexists. send_row_finish. done.
  - destruct v as [| | | | | |members]; try done.
    erewrite runIO_bind_Ok; [|rewrite runIO_lift, order_id_of_Ok; reflexivity].
    eexists. send_row_finish. done.
  - done.
  - destruct e; try done; eexists; send_row_finish; done.
Qed.




(** * Validation comes first *)

Lemma io_spec_mono {A : Type} (P P' : event → Prop) (Q : A → Prop)
    (m : IO A) :
  io_spec P Q m → (∀ e, P e → P' e) → io_spec P' Q m.
Proof.
  intros H HP tr. destruct (H tr) as (evs & Htr & Hevs & HQ).
  exists evs. split; [done|]. split; [|done].
  eapply Forall_impl; [exact Hevs|exact HP].
Qed.

Lemma io_spec_post {A : Type} (P : event → Prop) (Q Q' : A → Prop)
    (m : IO A) :
  io_spec P Q m →
  (∀ tr tr' a, runIO m tr = (tr', Ok a) → Q' a) →
  io_spec P Q' m.
Proof.
  intros H HQ' tr. destruct (H tr) as (evs & Htr & Hevs & _).
  exists evs. split; [done|]. split; [done|].
  intros a Ha. destruct (runIO m tr) as [tr' out] eqn:E. simpl in Ha.
  subst out. by eapply HQ'.
Qed.

Lemma concat_nil_Forall {A : Type} (ls : list (list A)) :
  concat ls = [] → Forall (fun l => l = []) ls.
Proof.
  induction ls as [|l ls IH]; simpl; [done|].
  intros [-> ?]%app_eq_nil. constructor; [done|by apply IH].
Qed.

(** X21: whatever the environment, a run makes a network call only after
    the configuration has loaded, the CSV file has been read, and
    [validate_row] has returned the empty list for every retained row
    under its row number. *)
Theorem run_sends_after_validation (w : world) (csv_path config_path : string)
    (dry_run : bool) (req : request) :
  req ∈ network_calls (runIO (run w csv_path config_path dry_run) []).1 →
  ∃ config items records,
    loaded_config w config_path = Ok config
    ∧ py_getitem config "skus" = Ok (JArr items)
    ∧ csv_file w csv_path = Some records
    ∧ Forall (fun item => row_errors (sku_strings (JArr items)) item = [])
        (enumerate 2 (the_row <$> retained_rows records)).
Proof.
  assert (∀ e, harmless e → after_validation w csv_path config_path e)
    as Hharmless by (by intros []).
  assert (io_spec (after_validation w csv_path config_path) (fun _ => True)
            (run w csv_path config_path dry_run)) as Hrun.
  { unfold run. cbv zeta.
    do 7 (eapply (io_spec_bind _ (fun _ => True));
          [unfold setup_logging; io_quiet|intros ? _]).
    eapply (io_spec_bind _ (fun config =>
              loaded_config w config_path = Ok config)).
    { eapply (io_spec_post _ (fun _ => True));
        [unfold load_config; io_quiet|].
      intros tr tr' config H. rewrite load_config_run in H. congruence. }
    intros config Hconfig.
    eapply io_spec_bind; [apply io_spec_lift|intros sku_names Hskus].
    do 2 (eapply (io_spec_bind _ (fun _ => True)); [io_quiet|intros ? _]).
    eapply (io_spec_bind _ (fun rows =>
              ∃ items records,
                sku_names = JArr items
                ∧ csv_file w csv_path = Some records
                ∧ rows = the_row <$> retained_rows records)).
    { eapply (io_spec_post _ (fun _ => True));
        [unfold read_orders_csv; io_quiet|].
      intros tr tr' rows
        (items & records & ? & ? & _ & ? & _)%read_orders_csv_Ok.
      by exists items, records. }
    intros rows (items & records & -> & Hfile & ->).
    destruct (validate_all _ _) as [|err errs] eqn:Hvalid; [|io_quiet].
    eapply (io_spec_bind _ (fun _ => True)); [io_quiet|intros ? _].
    destruct dry_run.
    { eapply io_spec_mono; [|exact Hharmless].
      eapply (io_spec_bind _ (fun _ => True)); [|intros ? _; io_quiet].
      apply io_spec_for_each. intros item. unfold dry_run_row. io_quiet. }
    eapply (io_spec_bind _ (fun _ => True)); [io_quiet|intros api_key _].
    eapply (io_spec_bind _ (fun _ => True)).
    { eapply io_spec_mono.
      - eapply io_spec_weaken;
          [apply (send_loop_spec w (fun _ => True))|done].
      - intros e _. destruct e; try exact I.
        exists config, items, records. repeat split; try done.
        rewrite validate_all_eq in Hvalid.
        apply concat_nil_Forall in Hvalid. by apply Forall_fmap in Hvalid. }
    intros st _. io_quiet. }
  intros Hreq. destruct (Hrun []) as (evs & Htr & Hevs & _).
  rewrite Htr, app_nil_l in Hreq.
  unfold network_calls in Hreq.
  apply list_elem_of_omap in Hreq as (e & He & Hsome).
  destruct e; try done. injection Hsome as ->.
  rewrite Forall_forall in Hevs. apply (Hevs _ He).
Qed.

Lemma run_sends_after_validation_witness :
  ∃ config items records,
    loaded_config sample_world "config.json" = Ok config
    ∧ py_getitem config "skus" = Ok (JArr items)
    ∧ csv_file sample_world "orders.csv" = Some records
    ∧ Forall (fun item => row_errors (sku_strings (JArr items)) item = [])
        (enumerate 2 (the_row <$> retained_rows records)).
Proof.
  apply (run_sends_after_validation sample_world "orders.csv" "config.json"
           false
           (Request (request_url "https://mail.example.org/") (JStr "secret")
              bob_payload)).
  apply list_elem_of_lookup. exists 1%nat. by vm_compute.
Defined.
